(** * CONSULTA_CNPJ: the CNPJ codec and the registry lookup of [app.py]

    A shallow embedding of the utility functions and of the business logic of
    [cnpj_app_streamlit/app.py]:

    - [format_cnpj] and [clean_cnpj] (lines 13-34),
    - [consultar_cnpj_api] (lines 38-62), over an explicit HTTP transport and
      an event log that records every request, warning and sleep,
    - [extract_data_for_display] (lines 64-109), over a model of the Python
      values that [response.json()] produces.

    Python strings are sequences of Unicode code points.  What the
    interpreter and its libraries decide (which characters the regular
    expression class [\D] keeps, how [format] renders a number, what
    [strptime] accepts) is taken as an interface, stated once and
    instantiated below. *)

From Stdlib Require Import Bool String Ascii List NArith ZArith Lia.
From Stdlib Require Import DecimalString SpecFloat.
Import ListNotations.

(* ================================================================= *)
(** ** Strings *)

(** A character is a Unicode code point, a string a list of them. *)
Definition char := N.
Definition str := list char.

(** The literals of this file are UTF-8; [lit "..."] is the Python string
    written as that literal, one code point per character.  The decoder
    reads the length of a character off the leading bits of its first
    byte: [0xxxxxxx], [110xxxxx], [1110xxxx] or [11110xxx], each followed
    by continuation bytes [10xxxxxx] that carry six bits. *)
Definition low6 (a : ascii) : N :=
  match a with
  | Ascii b0 b1 b2 b3 b4 b5 _ _ => N_of_digits [b0; b1; b2; b3; b4; b5]
  end.

Fixpoint lit (s : string) : str :=
  match s with
  | EmptyString => []
  | String (Ascii b0 b1 b2 b3 b4 b5 b6 false) rest =>
    N_of_digits [b0; b1; b2; b3; b4; b5; b6] :: lit rest
  | String (Ascii b0 b1 b2 b3 b4 b5 false true) rest =>
    N_of_digits [b0; b1; b2; b3; b4; b5; false; true] :: lit rest
  | String (Ascii b0 b1 b2 b3 b4 false true true) rest =>
    match rest with
    | String a1 rest1 =>
      (N_of_digits [b0; b1; b2; b3; b4] * 64 + low6 a1)%N :: lit rest1
    | EmptyString => []
    end
  | String (Ascii b0 b1 b2 b3 false true true true) rest =>
    match rest with
    | String a1 (String a2 rest2) =>
      (N_of_digits [b0; b1; b2; b3] * 4096 + low6 a1 * 64 + low6 a2)%N :: lit rest2
    | _ => []
    end
  | String (Ascii b0 b1 b2 _ true true true true) rest =>
    match rest with
    | String a1 (String a2 (String a3 rest3)) =>
      (N_of_digits [b0; b1; b2] * 262144 + low6 a1 * 4096 + low6 a2 * 64 + low6 a3)%N
        :: lit rest3
    | _ => []
    end
  end.

(** [s[a:b]] for [0 <= a <= b]. *)
Definition slice (a b : nat) (s : str) : str := firstn (b - a) (skipn a s).

(** [a == b] for two strings. *)
Fixpoint str_eqb (a b : str) : bool :=
  match a, b with
  | [], [] => true
  | x :: a', y :: b' => (x =? y)%N && str_eqb a' b'
  | _, _ => false
  end.

(** The characters the program itself writes next to digits. *)
Definition DOT : char := 46%N.
Definition SLASH : char := 47%N.
Definition HYPHEN : char := 45%N.

(** The ASCII digits ['0'..'9']. *)
Definition ascii_digit (c : char) : bool := ((48 <=? c) && (c <=? 57))%N.

(* ================================================================= *)
(** ** The interpreter's character database *)

(** [is_decimal] is the class [\d] of [re] on [str] patterns (Unicode
    category Nd), [is_digit] the per-character test of [str.isdigit].  On
    ASCII, [\d] is exactly ['0'..'9']; every decimal character is a digit. *)
Class Unicode := {
  is_decimal : char -> bool;
  is_digit : char -> bool;
  decimal_ascii : forall c, (c < 128)%N -> is_decimal c = ascii_digit c;
  decimal_is_digit : forall c, is_decimal c = true -> is_digit c = true
}.

(** A database that knows no digits beyond ASCII. *)
#[refine] Instance ascii_only : Unicode := {
  is_decimal := ascii_digit;
  is_digit := ascii_digit
}.
Proof.
- reflexivity.
- trivial.
Defined.

(* ================================================================= *)
(** ** [format_cnpj] and [clean_cnpj] *)

Section Codec.
Context {U : Unicode}.

(** [re.sub(r'\D', '', s)]: every character outside [\d] is dropped. *)
Definition re_sub_nondigit (s : str) : str := filter is_decimal s.

(** [s.isdigit()]: at least one character, and all of them digits. *)
Definition isdigit (s : str) : bool :=
  match s with
  | [] => false
  | _ => forallb is_digit s
  end.

(** Lines 15-17, the first statements of [format_cnpj]: strip, then keep at
    most the first 14. *)
Definition normalize (cnpj_text : str) : str :=
  let clean_cnpj := re_sub_nondigit cnpj_text in
  if 14 <? length clean_cnpj then slice 0 14 clean_cnpj else clean_cnpj.

(** Lines 13-30. *)
Definition format_cnpj (cnpj_text : str) : str :=
  let clean_cnpj := normalize cnpj_text in
  let formatted_cnpj := [] in
  let formatted_cnpj :=
    if 0 <? length clean_cnpj
    then formatted_cnpj ++ slice 0 2 clean_cnpj else formatted_cnpj in
  let formatted_cnpj :=
    if 2 <? length clean_cnpj
    then formatted_cnpj ++ (DOT :: slice 2 5 clean_cnpj) else formatted_cnpj in
  let formatted_cnpj :=
    if 5 <? length clean_cnpj
    then formatted_cnpj ++ (DOT :: slice 5 8 clean_cnpj) else formatted_cnpj in
  let formatted_cnpj :=
    if 8 <? length clean_cnpj
    then formatted_cnpj ++ (SLASH :: slice 8 12 clean_cnpj) else formatted_cnpj in
  let formatted_cnpj :=
    if 12 <? length clean_cnpj
    then formatted_cnpj ++ (HYPHEN :: slice 12 14 clean_cnpj) else formatted_cnpj in
  formatted_cnpj.

(** Lines 32-34. *)
Definition clean_cnpj (formatted_cnpj : str) : str :=
  re_sub_nondigit formatted_cnpj.

(** Line 44, the test that guards the request: [not s.isdigit() or
    len(s) != 14]. *)
Definition rejected (clean_cnpj_num : str) : bool :=
  negb (isdigit clean_cnpj_num) || negb (length clean_cnpj_num =? 14).

(** Lines 43-45 read as a function: the canonical code, or nothing. *)
Definition validate (cnpj : str) : option str :=
  let clean_cnpj_num := clean_cnpj cnpj in
  if rejected clean_cnpj_num then None else Some clean_cnpj_num.

End Codec.

(* ================================================================= *)
(** ** Python values, exceptions and dictionaries *)

(** The values [response.json()] can build.  A dictionary is the list of
    its items in insertion order; a lookup takes the first item with the
    key. *)
#[warnings="-register-all"]
Inductive value :=
| VNone
| VBool (b : bool)
| VInt (z : Z)
| VFloat (f : SpecFloat.spec_float)
| VStr (s : str)
| VList (l : list value)
| VDict (d : list (str * value)).

Definition dict := list (str * value).

(** The exceptions that occur.  [RequestException] stands for
    [requests.exceptions.RequestException] and all its subclasses
    ([ConnectionError], [Timeout], [SSLError], ...), with [str(e)]. *)
Inductive exn :=
| RequestException (details : str)
| TypeError
| AttributeError
| KeyError
| ValueError.

(** A computation returns or raises. *)
Inductive result (A : Type) :=
| Return (a : A)
| Raise (e : exn).
Arguments Return {A} a.
Arguments Raise {A} e.

Definition bind {A B} (m : result A) (k : A -> result B) : result B :=
  match m with
  | Return a => k a
  | Raise e => Raise e
  end.

Notation "x <- m ;; k" := (bind m (fun x => k))
  (at level 61, m at next level, right associativity).

Fixpoint dict_get (d : dict) (k : str) : option value :=
  match d with
  | [] => None
  | (k', v) :: rest => if str_eqb k' k then Some v else dict_get rest k
  end.

(** [k in d]. *)
Definition dict_has (d : dict) (k : str) : bool :=
  match dict_get d k with Some _ => true | None => false end.

(** [v.get(k, default)]: only a dictionary has the method. *)
Definition get (v : value) (k : str) (default : value) : result value :=
  match v with
  | VDict d =>
    Return (match dict_get d k with Some x => x | None => default end)
  | _ => Raise AttributeError
  end.

(** [v[k]] for a string [k]. *)
Definition subscript (v : value) (k : str) : result value :=
  match v with
  | VDict d =>
    match dict_get d k with Some x => Return x | None => Raise KeyError end
  | _ => Raise TypeError
  end.

(** [bool(v)]. *)
Definition truthy (v : value) : bool :=
  match v with
  | VNone => false
  | VBool b => b
  | VInt z => negb (z =? 0)%Z
  | VFloat (SpecFloat.S754_zero _) => false
  | VFloat _ => true
  | VStr s => negb (length s =? 0)
  | VList l => negb (length l =? 0)
  | VDict d => negb (length d =? 0)
  end.

(** [str(n)] for an [int]. *)
Definition str_of_int (z : Z) : str :=
  lit (DecimalString.NilEmpty.string_of_int (Z.to_int z)).

(** The dictionary [{"error": msg}] every failure of the lookup returns. *)
Definition error_dict (msg : str) : value := VDict [(lit "error", VStr msg)].

(* ================================================================= *)
(** ** The registry lookup *)

(** What [requests.get] hands back: the status, and what [response.json()]
    does with the body. *)
Record response := {
  status_code : Z;
  json : result value
}.

(** What the lookup does to the outside, in the order it does it. *)
Inductive event :=
| HttpGet (url : str)
| StWarning (msg : str)
| TimeSleep (seconds : Z).

(** Line 47: the endpoint, keyed by the code. *)
Definition registry_url (clean_cnpj_num : str) : str :=
  lit "https://open.cnpja.com/office/" ++ clean_cnpj_num.

(** The texts of lines 45 and 54. *)
Definition INVALID_CNPJ : str := lit "CNPJ inválido. Digite 14 dígitos numéricos.".
Definition RATE_LIMIT_NOTICE : str :=
  lit "Muitas requisições (429). Tentando novamente em 60 segundos...".

Section Lookup.
Context {U : Unicode}.

(** The transport: a state and what [requests.get(url)] does in it. *)
Variable conn : Type.
Variable requests_get : conn -> str -> result response * conn.

Record world := {
  net : conn;
  log : list event
}.

Definition emit (e : event) (w : world) : world :=
  {| net := net w; log := log w ++ [e] |}.

Definition http_get (url : str) (w : world) : result response * world :=
  let (r, c) := requests_get (net w) url in
  (r, {| net := c; log := log w ++ [HttpGet url] |}).

(** Lines 61-62: [except requests.exceptions.RequestException as e]. *)
Definition except_RequestException (r : result value) : result value :=
  match r with
  | Raise (RequestException e) => Return (error_dict (lit "Erro de conexão: " ++ e))
  | _ => r
  end.

(** Lines 38-62.  [depth] is how many nested calls the interpreter still
    allows; the function gives [None] when the retry needs one more. *)
Fixpoint consultar_cnpj_api (depth : nat) (cnpj : str) (w : world)
  : option (result value * world) :=
  let clean_cnpj_num := clean_cnpj cnpj in
  if rejected clean_cnpj_num
  then Some (Return (error_dict INVALID_CNPJ), w)
  else
    let url := registry_url clean_cnpj_num in
    match http_get url w with
    | (Raise e, w1) => Some (except_RequestException (Raise e), w1)
    | (Return response, w1) =>
      if (status_code response =? 200)%Z
      then Some (except_RequestException (json response), w1)
      else if (status_code response =? 429)%Z
      then
        let w2 := emit (StWarning RATE_LIMIT_NOTICE) w1 in
        let w3 := emit (TimeSleep 60) w2 in
        match depth with
        | 0 => None
        | S depth' =>
          match consultar_cnpj_api depth' cnpj w3 with
          | Some (r, w4) => Some (except_RequestException r, w4)
          | None => None
          end
        end
      else if (status_code response =? 404)%Z
      then Some (Return (error_dict
             (lit "CNPJ " ++ clean_cnpj_num ++ lit " não encontrado ou inválido na base da API.")), w1)
      else Some (Return (error_dict
             (lit "Erro ao consultar " ++ clean_cnpj_num ++ lit ": Status "
                ++ str_of_int (status_code response))), w1)
    end.

End Lookup.

Arguments Build_world {conn} net log.
Arguments net {conn} w.
Arguments log {conn} w.
Arguments emit {conn} e w.
Arguments http_get {conn} requests_get url w.
Arguments consultar_cnpj_api {U conn} requests_get depth cnpj w.

(* ================================================================= *)
(** ** [extract_data_for_display] *)

(** What the interpreter's library decides: the rendering of the values
    that are no [str], [int], [bool] or [None]; whether a string is a date
    in the layout [%Y-%m-%d] ([None] where [strptime] raises [ValueError]);
    and the rendering of a date as [%d/%m/%Y]. *)
Class Runtime := {
  repr : value -> str;
  datetime : Type;
  strptime_Ymd : str -> option datetime;
  strftime_dmY : datetime -> str
}.

Section Extract.
Context {U : Unicode} {R : Runtime}.

Definition NA : value := VStr (lit "N/A").

(** [a in s] for two strings. *)
Fixpoint starts_with (a s : str) : bool :=
  match a, s with
  | [], _ => true
  | _ :: _, [] => false
  | x :: a', y :: s' => (x =? y)%N && starts_with a' s'
  end.

Fixpoint is_infix (a s : str) : bool :=
  starts_with a s ||
  match s with
  | [] => false
  | _ :: s' => is_infix a s'
  end.

(** [k in v] for a string [k]: a key of a dictionary, an element of a
    list, a substring of a string. *)
Definition contains (k : str) (v : value) : result bool :=
  match v with
  | VDict d => Return (dict_has d k)
  | VList l =>
    Return (existsb (fun x => match x with VStr s => str_eqb s k | _ => false end) l)
  | VStr s => Return (is_infix k s)
  | _ => Raise TypeError
  end.

(** [f"{v}"]. *)
Definition format_value (v : value) : str :=
  match v with
  | VStr s => s
  | VInt z => str_of_int z
  | VNone => lit "None"
  | VBool true => lit "True"
  | VBool false => lit "False"
  | _ => repr v
  end.

(** [format_cnpj] applied to a value: [re.sub] wants a string. *)
Definition format_cnpj_value (v : value) : result value :=
  match v with
  | VStr s => Return (VStr (format_cnpj s))
  | _ => Raise TypeError
  end.

(** Lines 83-91. *)
Definition data_de_abertura (founded_str : value) : result value :=
  if truthy founded_str then
    match founded_str with
    | VStr s =>
      match strptime_Ymd s with
      | Some dt_object => Return (VStr (strftime_dmY dt_object))
      | None => Return NA
      end
    | _ => Raise TypeError
    end
  else Return NA.

(** [for member in members]: what the loop visits. *)
Definition iterate (v : value) : result (list value) :=
  match v with
  | VList l => Return l
  | VStr s => Return (map (fun c => VStr [c]) s)
  | VDict d => Return (map (fun kv => VStr (fst kv)) d)
  | _ => Raise TypeError
  end.

(** Lines 102-104, the body of the loop over all members. *)
Fixpoint members_info (members : list value) : result (list value) :=
  match members with
  | [] => Return []
  | member :: rest =>
    person <- get member (lit "person") (VDict []) ;;
    name <- get person (lit "name") NA ;;
    names <- members_info rest ;;
    Return (name :: names)
  end.

(** [sep.join(items)]: every item must be a string. *)
Fixpoint join (sep : str) (items : list value) : result str :=
  match items with
  | [] => Return []
  | VStr s :: rest =>
    match rest with
    | [] => Return s
    | _ => tail <- join sep rest ;; Return (s ++ sep ++ tail)
    end
  | _ => Raise TypeError
  end.

(** Lines 99-107. *)
Definition socios (members : value) : result value :=
  if truthy members then
    items <- iterate members ;;
    members_info_list <- members_info items ;;
    joined <- join (lit ", ") members_info_list ;;
    Return (VStr joined)
  else Return NA.

(** Lines 64-109.  The pair is the tuple the function returns. *)
Definition extract_data_for_display (response : value) : result (value * value) :=
  has_error <- contains (lit "error") response ;;
  if has_error : bool then
    e <- subscript response (lit "error") ;;
    Return (VNone, e)
  else
    let data := response in
    company <- get data (lit "company") (VDict []) ;;
    address_data <- get data (lit "address") (VDict []) ;;
    status_info <- get data (lit "status") (VDict []) ;;
    main_activity <- get data (lit "mainActivity") (VDict []) ;;
    taxId <- get data (lit "taxId") NA ;;
    cnpj <- format_cnpj_value taxId ;;
    razao_social <- get company (lit "name") NA ;;
    nome_fantasia <- get data (lit "alias") NA ;;
    founded_str <- get data (lit "founded") VNone ;;
    abertura <- data_de_abertura founded_str ;;
    situacao <- get status_info (lit "text") NA ;;
    logradouro <- get address_data (lit "street") NA ;;
    numero <- get address_data (lit "number") NA ;;
    activity_id <- get main_activity (lit "id") NA ;;
    activity_text <- get main_activity (lit "text") NA ;;
    let cnae := VStr (format_value activity_id ++ lit " - " ++ format_value activity_text) in
    members <- get company (lit "members") (VList []) ;;
    socios_value <- socios members ;;
    Return (VDict [ (lit "CNPJ", cnpj);
                    (lit "Razão Social", razao_social);
                    (lit "Nome Fantasia", nome_fantasia);
                    (lit "Data de Abertura", abertura);
                    (lit "Situação Cadastral", situacao);
                    (lit "Logradouro", logradouro);
                    (lit "Número", numero);
                    (lit "CNAE Principal", cnae);
                    (lit "Sócios", socios_value) ],
            VNone).

End Extract.

(* ================================================================= *)
(** ** The spec's reading of the formatted code *)

(** §4.1 of the spec, [format]: separators at positions 2, 5, 8 and 12 of
    the digit sequence; a separator is written only when the digit after it
    exists.  This definition follows the spec's words, not the code. *)
Definition separator_before (i : nat) : str :=
  match i with
  | 2 | 5 => [DOT]
  | 8 => [SLASH]
  | 12 => [HYPHEN]
  | _ => []
  end.

Fixpoint with_separators (i : nat) (digits : str) : str :=
  match digits with
  | [] => []
  | c :: rest => separator_before i ++ c :: with_separators (S i) rest
  end.

(** A canonical code: exactly 14 characters, all of them decimal digits. *)
Definition is_canonical {U : Unicode} (c : str) : bool :=
  (length c =? 14) && forallb is_decimal c.

(* ================================================================= *)
(** ** Vocabulary for the lookup *)

Section LookupVocabulary.
Context {U : Unicode}.
Variable conn : Type.
Variable requests_get : conn -> str -> result response * conn.

(** What one round of line 53-55 leaves in the log, and [n] rounds. *)
Definition retry_round (url : str) : list event :=
  [HttpGet url; StWarning RATE_LIMIT_NOTICE; TimeSleep 60].

Fixpoint retry_rounds (n : nat) (url : str) : list event :=
  match n with
  | 0 => []
  | S n' => retry_round url ++ retry_rounds n' url
  end.

(** The transport answers 429 to the first [n] requests for [url] made
    from the state [c], and is then in the state it gives. *)
Fixpoint after_429 (n : nat) (url : str) (c : conn) : option conn :=
  match n with
  | 0 => Some c
  | S n' =>
    match requests_get c url with
    | (Return r, c') =>
      if (status_code r =? 429)%Z then after_429 n' url c' else None
    | (Raise _, _) => None
    end
  end.

Definition is_429 (o : result response) : bool :=
  match o with
  | Return r => (status_code r =? 429)%Z
  | Raise _ => false
  end.

(** Lines 51-52 and 57-62 on an outcome that is no 429. *)
Definition answer (clean_cnpj_num : str) (o : result response) : result value :=
  match o with
  | Raise e => except_RequestException (Raise e)
  | Return response =>
    if (status_code response =? 200)%Z
    then except_RequestException (json response)
    else if (status_code response =? 404)%Z
    then Return (error_dict
           (lit "CNPJ " ++ clean_cnpj_num ++ lit " não encontrado ou inválido na base da API."))
    else Return (error_dict
           (lit "Erro ao consultar " ++ clean_cnpj_num ++ lit ": Status "
              ++ str_of_int (status_code response)))
  end.

End LookupVocabulary.

Arguments after_429 {conn} requests_get n url c.

(* ================================================================= *)
(** ** Vocabulary for the extraction *)

(** The shape the extraction can work with.  [sub d k] is [d.get(k, {})]
    where that is a dictionary. *)
Definition is_dict (v : value) : bool :=
  match v with VDict _ => true | _ => false end.

Definition is_str (v : value) : bool :=
  match v with VStr _ => true | _ => false end.

Definition absent_or (p : value -> bool) (d : dict) (k : str) : bool :=
  match dict_get d k with
  | None => true
  | Some v => p v
  end.

Definition sub (d : dict) (k : str) : dict :=
  match dict_get d k with
  | Some (VDict x) => x
  | _ => []
  end.

(** A member is a dictionary whose ["person"], when present, is a
    dictionary whose ["name"], when present, is a string. *)
Definition member_ok (member : value) : bool :=
  match member with
  | VDict d =>
    absent_or is_dict d (lit "person")
    && absent_or is_str (sub d (lit "person")) (lit "name")
  | _ => false
  end.

Definition members_ok (members : value) : bool :=
  negb (truthy members) ||
  match members with
  | VList l => forallb member_ok l
  | _ => false
  end.

Definition founded_ok (founded : value) : bool :=
  negb (truthy founded) || is_str founded.

Definition well_shaped (m : dict) : bool :=
  absent_or is_dict m (lit "company")
  && absent_or is_dict m (lit "address")
  && absent_or is_dict m (lit "status")
  && absent_or is_dict m (lit "mainActivity")
  && absent_or is_str m (lit "taxId")
  && absent_or founded_ok m (lit "founded")
  && absent_or members_ok (sub m (lit "company")) (lit "members").

(* ================================================================= *)
(** ** A scripted transport *)

(** The transport of a test: it answers the requests with the outcomes of
    a list, one after the other, whatever the URL, and refuses the
    connection once the list is used up. *)
Definition scripted (c : list (result response)) (url : str)
  : result response * list (result response) :=
  match c with
  | [] => (Raise (RequestException (lit "connection refused")), [])
  | o :: rest => (o, rest)
  end.

Definition http_response (status : Z) (body : value) : result response :=
  Return {| status_code := status; json := Return body |}.

(** A body with no JSON in it: [response.json()] raises. *)
Definition http_no_json (status : Z) : result response :=
  Return {| status_code := status;
            json := Raise (RequestException (lit "Expecting value: line 1 column 1 (char 0)")) |}.

(** A record with no status, no address, no activity and one member
    without a name. *)
Definition sample_fields : dict :=
  [ (lit "taxId", VStr (lit "11222333000181"));
    (lit "alias", VStr (lit "ACME"));
    (lit "founded", VStr (lit "1999-12-31"));
    (lit "company",
     VDict [ (lit "name", VStr (lit "ACME LTDA"));
             (lit "members",
              VList [ VDict [ (lit "person", VDict [ (lit "name", VStr (lit "Ana")) ]) ];
                      VDict [] ]) ]) ].

Definition sample_record : value := VDict sample_fields.

(** A body of a 200 response that has a key ["error"]. *)
Definition error_fields : dict :=
  [ (lit "taxId", VStr (lit "11222333000181"));
    (lit "error", VStr (lit "quota exceeded")) ].

(* ================================================================= *)
(** ** A runtime for the examples *)

(** Dates are read as [dddd-dd-dd] over the ASCII digits and written back
    as [dd/dd/dddd]; the calendar is not consulted.  Values that
    [format_value] leaves to the runtime are rendered as ["?"]. *)
Definition iso_date (s : str) : option (str * str * str) :=
  match s with
  | [y1; y2; y3; y4; h1; m1; m2; h2; d1; d2] =>
    if forallb ascii_digit [y1; y2; y3; y4; m1; m2; d1; d2]
       && (h1 =? HYPHEN)%N && (h2 =? HYPHEN)%N
    then Some ([y1; y2; y3; y4], [m1; m2], [d1; d2])
    else None
  | _ => None
  end.

Instance sample_runtime : Runtime := {
  repr := fun _ => lit "?";
  datetime := str * str * str;
  strptime_Ymd := iso_date;
  strftime_dmY := fun '(y, m, d) => d ++ SLASH :: m ++ SLASH :: y
}.

(** A database with the ASCII digits and the Arabic-Indic digits
    (U+0660 to U+0669) as decimal characters, and the superscripts
    one, two and three as further digits. *)
Definition sample_decimal (c : char) : bool :=
  ascii_digit c || ((1632 <=? c) && (c <=? 1641))%N.

Definition sample_digit (c : char) : bool :=
  sample_decimal c || (c =? 178)%N || (c =? 179)%N || (c =? 185)%N.

#[refine] Instance sample_unicode : Unicode := {
  is_decimal := sample_decimal;
  is_digit := sample_digit
}.
Proof.
- intros c Hc. unfold sample_decimal.
  replace (1632 <=? c)%N with false by (symmetry; apply N.leb_gt; lia).
  apply orb_false_r.
- intros c Hc. unfold sample_digit. rewrite Hc. reflexivity.
Defined.

(* ================================================================= *)
(** ** The page: lines 117-186 and the file name of line 240 *)

(** What a run of the script puts on the page, in order.  [Effect] is
    what the lookup does (its requests, its rate-limit warnings, its
    sleeps) and the one [st.warning] of the page itself. *)
Inductive ui_event :=
| Effect (e : event)
| StInfo (msg : str)
| StError (msg : str)
| StSuccess (msg : str)
| StSpinner (msg : str)
| StSubheader (msg : str)
| StTabs (labels : list str)
| StWrite (tab : str) (text : str).

Section Page.
Context {U : Unicode} {R : Runtime}.
Variable conn : Type.
Variable requests_get : conn -> str -> result response * conn.

(** The transport, the page of the current run, and the two attributes of
    [st.session_state] the script uses ([None]: not set yet). *)
Record page := {
  transport : conn;
  screen : list ui_event;
  last_consulted_data : option value;
  api_raw_response : option value
}.

Definition say (e : ui_event) (a : page) : page :=
  {| transport := transport a;
     screen := screen a ++ [e];
     last_consulted_data := last_consulted_data a;
     api_raw_response := api_raw_response a |}.

Definition set_session (last raw : value) (a : page) : page :=
  {| transport := transport a;
     screen := screen a;
     last_consulted_data := Some last;
     api_raw_response := Some raw |}.

(** Lines 119-122: the notice under the input box. *)
Definition formatacao_automatica (cnpj_input : str) (a : page) : page :=
  let display_cnpj := format_cnpj cnpj_input in
  if truthy (VStr cnpj_input)
     && negb (str_eqb (clean_cnpj cnpj_input) (clean_cnpj display_cnpj))
  then say (StInfo (lit "CNPJ formatado: **" ++ display_cnpj ++ lit "**")) a
  else a.

(** Lines 124-149: the button [Consultar CNPJ]; [clicked] is what
    [st.button] returns.  The lookup runs on the transport of the page and
    its events go on the page after the spinner. *)
Definition botao_consultar (depth : nat) (cnpj_input : str) (clicked : bool)
    (a : page) : option (result unit * page) :=
  if clicked then
    if negb (truthy (VStr cnpj_input))
    then Some (Return tt,
               say (Effect (StWarning (lit "Por favor, digite um CNPJ para consultar."))) a)
    else
      let cleaned_cnpj := clean_cnpj cnpj_input in
      if negb (length cleaned_cnpj =? 14) || negb (isdigit cleaned_cnpj)
      then Some (Return tt,
                 say (StError (lit "CNPJ inválido. Digite 14 dígitos numéricos.")) a)
      else
        let a1 := say (StSpinner (lit "Consultando CNPJ...")) a in
        match consultar_cnpj_api requests_get depth cleaned_cnpj
                (Build_world (transport a1) []) with
        | None => None
        | Some (r, w) =>
          let a2 := {| transport := net w;
                       screen := screen a1 ++ map Effect (log w);
                       last_consulted_data := last_consulted_data a1;
                       api_raw_response := api_raw_response a1 |} in
          match r with
          | Raise e => Some (Raise e, a2)
          | Return api_response =>
            match contains (lit "error") api_response with
            | Raise e => Some (Raise e, a2)
            | Return true =>
              match subscript api_response (lit "error") with
              | Raise e => Some (Raise e, a2)
              | Return err =>
                Some (Return tt,
                      set_session (VDict []) (VDict [])
                        (say (StError (lit "Erro na consulta: " ++ format_value err)) a2))
              end
            | Return false =>
              match extract_data_for_display api_response with
              | Raise e => Some (Raise e, a2)
              | Return (extracted_data, error_msg) =>
                if truthy error_msg
                then Some (Return tt,
                           set_session (VDict []) (VDict [])
                             (say (StError (lit "Erro ao processar dados: "
                                              ++ format_value error_msg)) a2))
                else Some (Return tt,
                           set_session extracted_data api_response
                             (say (StSuccess (lit "Consulta concluída com sucesso!")) a2))
              end
            end
          end
        end
  else Some (Return tt, a).

(** [st.write(f"**{label}:** {last.get(key, 'N/A')}")] inside a tab. *)
Definition write_field (tab label key : str) (last : value) (a : page) : result page :=
  v <- get last key NA ;;
  Return (say (StWrite tab (lit "**" ++ label ++ lit ":** " ++ format_value v)) a).

(** Lines 152-186: the panel with the result of the last lookup. *)
Definition exibir_resultados (a : page) : result page :=
  match last_consulted_data a with
  | None => Return a
  | Some last =>
    if truthy last then
      let a := say (StSubheader (lit "Dados do CNPJ")) a in
      let a := say (StTabs [lit "Geral"; lit "Endereço"; lit "Atividades";
                            lit "Sócios"; lit "IEs"]) a in
      a <- write_field (lit "Geral") (lit "CNPJ") (lit "CNPJ") last a ;;
      a <- write_field (lit "Geral") (lit "Razão Social") (lit "Razão Social") last a ;;
      a <- write_field (lit "Geral") (lit "Nome Fantasia") (lit "Nome Fantasia") last a ;;
      a <- write_field (lit "Geral") (lit "Data de Abertura") (lit "Data de Abertura") last a ;;
      a <- write_field (lit "Geral") (lit "Situação Cadastral") (lit "Situação Cadastral") last a ;;
      a <- write_field (lit "Endereço") (lit "Logradouro") (lit "Logradouro") last a ;;
      a <- write_field (lit "Endereço") (lit "Número") (lit "Número") last a ;;
      a <- write_field (lit "Atividades") (lit "CNAE Principal") (lit "CNAE Principal") last a ;;
      a <- write_field (lit "Sócios") (lit "Sócios") (lit "Sócios") last a ;;
      Return (say (StWrite (lit "IEs") (lit "Inscrições Estaduais (IEs) viriam aqui.")) a)
    else Return a
  end.

(** Line 240: the name of the text file,
    [f"Cartao_CNPJ_{clean_cnpj(last_consulted_data['CNPJ'])}.txt"]. *)
Definition nome_cartao_txt (last : value) : result str :=
  cnpj <- subscript last (lit "CNPJ") ;;
  match cnpj with
  | VStr s => Return (lit "Cartao_CNPJ_" ++ clean_cnpj s ++ lit ".txt")
  | _ => Raise TypeError
  end.

End Page.

Arguments Build_page {conn} transport screen last_consulted_data api_raw_response.
Arguments transport {conn} p.
Arguments screen {conn} p.
Arguments last_consulted_data {conn} p.
Arguments api_raw_response {conn} p.
Arguments say {conn} e a.
Arguments set_session {conn} last raw a.
Arguments formatacao_automatica {U conn} cnpj_input a.
Arguments botao_consultar {U R conn} requests_get depth cnpj_input clicked a.
Arguments write_field {R conn} tab label key last a.
Arguments exibir_resultados {R conn} a.

(** The docstring of [format_cnpj], [XX.XXX.XXX/XXXX-XX], as a pattern:
    [X] stands for a decimal digit, every other character for itself. *)
Fixpoint matches_pattern {U : Unicode} (pattern s : str) : bool :=
  match pattern, s with
  | [], [] => true
  | p :: pattern', c :: s' =>
    (if (p =? 88)%N then is_decimal c else (p =? c)%N) && matches_pattern pattern' s'
  | _, _ => false
  end.

(* ================================================================= *)
(** ** More samples *)

(** What the extraction makes of the sample record. *)
Definition sample_display : value :=
  VDict [ (lit "CNPJ", VStr (lit "11.222.333/0001-81"));
          (lit "Razão Social", VStr (lit "ACME LTDA"));
          (lit "Nome Fantasia", VStr (lit "ACME"));
          (lit "Data de Abertura", VStr (lit "31/12/1999"));
          (lit "Situação Cadastral", VStr (lit "N/A"));
          (lit "Logradouro", VStr (lit "N/A"));
          (lit "Número", VStr (lit "N/A"));
          (lit "CNAE Principal", VStr (lit "N/A - N/A"));
          (lit "Sócios", VStr (lit "Ana, N/A")) ].

(** A record whose alias is [null], and what the extraction makes of it. *)
Definition null_alias_fields : dict :=
  [ (lit "taxId", VStr (lit "11222333000181")); (lit "alias", VNone) ].

Definition null_alias_display : dict :=
  [ (lit "CNPJ", VStr (lit "11.222.333/0001-81"));
    (lit "Razão Social", VStr (lit "N/A"));
    (lit "Nome Fantasia", VNone);
    (lit "Data de Abertura", VStr (lit "N/A"));
    (lit "Situação Cadastral", VStr (lit "N/A"));
    (lit "Logradouro", VStr (lit "N/A"));
    (lit "Número", VStr (lit "N/A"));
    (lit "CNAE Principal", VStr (lit "N/A - N/A"));
    (lit "Sócios", VStr (lit "N/A")) ].


Definition http_unreadable : response :=
  {| status_code := 200;
     json := Raise (RequestException (lit "Expecting value: line 1 column 1 (char 0)")) |}.

(** A fresh session in front of a registry that knows the sample record,
    and the same session after a click on [Consultar CNPJ]. *)
Definition start_page : page (list (result response)) :=
  Build_page [http_response 200 sample_record] [] None None.

Definition success_page : page (list (result response)) :=
  Build_page []
    [ StSpinner (lit "Consultando CNPJ...");
      Effect (HttpGet (lit "https://open.cnpja.com/office/11222333000181"));
      StSuccess (lit "Consulta concluída com sucesso!") ]
    (Some sample_display) (Some sample_record).

(* ================================================================= *)
(** ** Properties of the codec *)

Section CodecFacts.
Context {U : Unicode}.

Lemma re_sub_ascii (s : str) :
  forallb (fun c => c <? 128)%N s = true ->
  re_sub_nondigit s = filter ascii_digit s.
Proof.
  unfold re_sub_nondigit.
  induction s as [|c s IH]; simpl; [reflexivity|].
  intros H. apply andb_prop in H. destruct H as [Hc Hs].
  rewrite (decimal_ascii c) by (apply N.ltb_lt; exact Hc).
  rewrite (IH Hs). reflexivity.
Qed.

Lemma re_sub_decimal (s : str) : forallb is_decimal (re_sub_nondigit s) = true.
Proof.
  unfold re_sub_nondigit.
  induction s as [|c s IH]; simpl; [reflexivity|].
  destruct (is_decimal c) eqn:Hc; simpl; [rewrite Hc|]; exact IH.
Qed.

Lemma re_sub_fixed (d : str) :
  forallb is_decimal d = true -> re_sub_nondigit d = d.
Proof.
  unfold re_sub_nondigit.
  induction d as [|c d IH]; simpl; [reflexivity|].
  intros H. apply andb_prop in H. destruct H as [Hc Hd].
  rewrite Hc, (IH Hd). reflexivity.
Qed.

Lemma forallb_firstn (f : char -> bool) (n : nat) (s : str) :
  forallb f s = true -> forallb f (firstn n s) = true.
Proof.
  revert s. induction n as [|n IH]; intros [|c s]; simpl; try reflexivity.
  intros H. apply andb_prop in H. destruct H as [Hc Hs].
  rewrite Hc. simpl. apply IH, Hs.
Qed.

(** The normalized form is the first 14 digits of the input. *)
Lemma normalize_firstn (s : str) : normalize s = firstn 14 (clean_cnpj s).
Proof.
  unfold normalize, slice, clean_cnpj.
  destruct (14 <? length (re_sub_nondigit s)) eqn:H; [reflexivity|].
  apply Nat.ltb_ge in H. symmetry. apply firstn_all2, H.
Qed.

Lemma normalize_decimal (s : str) : forallb is_decimal (normalize s) = true.
Proof. rewrite normalize_firstn. apply forallb_firstn, re_sub_decimal. Qed.

Lemma normalize_length (s : str) : length (normalize s) <= 14.
Proof. rewrite normalize_firstn, length_firstn. lia. Qed.

Lemma normalize_fixed (d : str) :
  forallb is_decimal d = true -> length d <= 14 -> normalize d = d.
Proof.
  intros Hd Hlen. unfold normalize. rewrite (re_sub_fixed d Hd).
  destruct (14 <? length d) eqn:H; [|reflexivity].
  apply Nat.ltb_lt in H. lia.
Qed.

Lemma normalize_idempotent (s : str) : normalize (normalize s) = normalize s.
Proof. apply normalize_fixed; [apply normalize_decimal | apply normalize_length]. Qed.

Lemma clean_canonical (c : str) : is_canonical c = true -> clean_cnpj c = c.
Proof.
  unfold is_canonical. intros H. apply andb_prop in H.
  apply re_sub_fixed, H.
Qed.

Lemma normalize_canonical (c : str) : is_canonical c = true -> normalize c = c.
Proof.
  unfold is_canonical. intros H. apply andb_prop in H. destruct H as [Hl Hd].
  apply Nat.eqb_eq in Hl. apply normalize_fixed; [exact Hd | lia].
Qed.

(** The code and the spec's reading agree on every digit sequence the
    code can reach. *)
Lemma format_body_spec (d : str) :
  length d <= 14 ->
  (let formatted_cnpj := [] in
   let formatted_cnpj :=
     if 0 <? length d then formatted_cnpj ++ slice 0 2 d else formatted_cnpj in
   let formatted_cnpj :=
     if 2 <? length d then formatted_cnpj ++ (DOT :: slice 2 5 d) else formatted_cnpj in
   let formatted_cnpj :=
     if 5 <? length d then formatted_cnpj ++ (DOT :: slice 5 8 d) else formatted_cnpj in
   let formatted_cnpj :=
     if 8 <? length d then formatted_cnpj ++ (SLASH :: slice 8 12 d) else formatted_cnpj in
   let formatted_cnpj :=
     if 12 <? length d then formatted_cnpj ++ (HYPHEN :: slice 12 14 d) else formatted_cnpj in
   formatted_cnpj) = with_separators 0 d.
Proof.
  intros Hd.
  do 15 (destruct d as [|? d]; [reflexivity|]).
  simpl in Hd. lia.
Qed.

Lemma format_cnpj_with_separators (s : str) :
  format_cnpj s = with_separators 0 (normalize s).
Proof. unfold format_cnpj. apply format_body_spec, normalize_length. Qed.

Lemma separator_not_decimal (i : nat) :
  filter is_decimal (separator_before i) = [].
Proof.
  assert (Hdot : is_decimal DOT = false) by (rewrite decimal_ascii; reflexivity).
  assert (Hslash : is_decimal SLASH = false) by (rewrite decimal_ascii; reflexivity).
  assert (Hhyphen : is_decimal HYPHEN = false) by (rewrite decimal_ascii; reflexivity).
  do 13 (destruct i as [|i]; [simpl; rewrite ?Hdot, ?Hslash, ?Hhyphen; reflexivity|]).
  reflexivity.
Qed.

(** Stripping the separators gives the digits back. *)
Lemma clean_with_separators (d : str) (i : nat) :
  forallb is_decimal d = true -> clean_cnpj (with_separators i d) = d.
Proof.
  unfold clean_cnpj, re_sub_nondigit.
  revert i. induction d as [|c d IH]; intros i H; simpl; [reflexivity|].
  apply andb_prop in H. destruct H as [Hc Hd].
  rewrite filter_app, separator_not_decimal. simpl.
  rewrite Hc, (IH (S i) Hd). reflexivity.
Qed.

Lemma with_separators_length (d : str) :
  length d <= 14 -> length (with_separators 0 d) <= 18.
Proof.
  intros Hd.
  do 15 (destruct d as [|? d]; [simpl; lia|]).
  simpl in Hd. lia.
Qed.

(** A stripped string passes [isdigit] as soon as it is not empty, so the
    guard of line 44 only looks at the length. *)
Lemma isdigit_decimal (d : str) :
  forallb is_decimal d = true -> d <> [] -> isdigit d = true.
Proof.
  intros H Hne. unfold isdigit. destruct d as [|c d]; [congruence|].
  clear Hne. revert H. generalize (c :: d). intros l.
  induction l as [|x l IH]; simpl; [reflexivity|].
  intros H. apply andb_prop in H. destruct H as [Hx Hl].
  rewrite (decimal_is_digit x Hx). simpl. apply IH, Hl.
Qed.

Lemma rejected_clean (s : str) :
  rejected (clean_cnpj s) = negb (length (clean_cnpj s) =? 14).
Proof.
  unfold rejected.
  destruct (length (clean_cnpj s) =? 14) eqn:Hl; simpl.
  - apply Nat.eqb_eq in Hl.
    rewrite isdigit_decimal; [reflexivity | apply re_sub_decimal |].
    intros E. rewrite E in Hl. discriminate Hl.
  - apply orb_true_r.
Qed.

Lemma rejected_canonical (c : str) :
  is_canonical c = true -> rejected (clean_cnpj c) = false.
Proof.
  intros H. rewrite rejected_clean, (clean_canonical c H).
  unfold is_canonical in H. apply andb_prop in H. destruct H as [Hl _].
  rewrite Hl. reflexivity.
Qed.

(** The canonical code survives its own formatting. *)
Lemma clean_format_canonical (c : str) :
  is_canonical c = true -> clean_cnpj (format_cnpj c) = c.
Proof.
  intros H. rewrite format_cnpj_with_separators, (normalize_canonical c H).
  apply clean_with_separators.
  unfold is_canonical in H. apply andb_prop in H. apply H.
Qed.

End CodecFacts.

(* ================================================================= *)
(** ** Properties of the lookup *)

Section LookupFacts.
Context {U : Unicode}.
Variable conn : Type.
Variable requests_get : conn -> str -> result response * conn.

Lemma except_idempotent (r : result value) :
  except_RequestException (except_RequestException r) = except_RequestException r.
Proof. destruct r as [v|[]]; reflexivity. Qed.

Lemma except_answer (code : str) (o : result response) :
  except_RequestException (answer code o) = answer code o.
Proof.
  destruct o as [r|e]; simpl.
  - destruct (status_code r =? 200)%Z; [apply except_idempotent|].
    destruct (status_code r =? 404)%Z; reflexivity.
  - apply (except_idempotent (Raise e)).
Qed.

(** An input the guard rejects: no request, nothing logged. *)
Lemma consultar_rejected (depth : nat) (cnpj : str) (w : world conn) :
  rejected (clean_cnpj cnpj) = true ->
  consultar_cnpj_api requests_get depth cnpj w
  = Some (Return (error_dict INVALID_CNPJ), w).
Proof. intros H. destruct depth; cbn [consultar_cnpj_api]; rewrite H; reflexivity. Qed.

(** One request whose outcome is no 429: answered at once. *)
Lemma consultar_once (depth : nat) (cnpj : str) (c c' : conn) (l : list event)
    (o : result response) :
  rejected (clean_cnpj cnpj) = false ->
  requests_get c (registry_url (clean_cnpj cnpj)) = (o, c') ->
  is_429 o = false ->
  consultar_cnpj_api requests_get depth cnpj (Build_world c l)
  = Some (answer (clean_cnpj cnpj) o,
          Build_world c' (l ++ [HttpGet (registry_url (clean_cnpj cnpj))])).
Proof.
  intros Hok Hget Hno.
  destruct depth; cbn [consultar_cnpj_api]; rewrite Hok; unfold http_get;
    cbn [net log]; rewrite Hget;
    (destruct o as [r|e]; [|reflexivity]); cbn [is_429 answer] in Hno |- *;
    (destruct (status_code r =? 200)%Z; [reflexivity|]);
    rewrite Hno; destruct (status_code r =? 404)%Z; reflexivity.
Qed.

(** One request answered 429: the notice, the sleep, and the same call
    again one level deeper. *)
Lemma consultar_429 (depth : nat) (cnpj : str) (c c' : conn) (l : list event)
    (r : response) :
  rejected (clean_cnpj cnpj) = false ->
  requests_get c (registry_url (clean_cnpj cnpj)) = (Return r, c') ->
  status_code r = 429%Z ->
  consultar_cnpj_api requests_get (S depth) cnpj (Build_world c l)
  = match consultar_cnpj_api requests_get depth cnpj
            (Build_world c' (l ++ retry_round (registry_url (clean_cnpj cnpj)))) with
    | Some (res, w) => Some (except_RequestException res, w)
    | None => None
    end.
Proof.
  intros Hok Hget H429.
  cbn [consultar_cnpj_api]. rewrite Hok. unfold http_get. cbn [net log].
  rewrite Hget, H429. cbn [Z.eqb Pos.eqb]. unfold emit. cbn [net log retry_round].
  rewrite <- !app_assoc. reflexivity.
Qed.

Lemma consultar_429_exhausted (cnpj : str) (c c' : conn) (l : list event)
    (r : response) :
  rejected (clean_cnpj cnpj) = false ->
  requests_get c (registry_url (clean_cnpj cnpj)) = (Return r, c') ->
  status_code r = 429%Z ->
  consultar_cnpj_api requests_get 0 cnpj (Build_world c l) = None.
Proof.
  intros Hok Hget H429.
  cbn [consultar_cnpj_api]. rewrite Hok. unfold http_get. cbn [net log].
  rewrite Hget, H429. reflexivity.
Qed.

(** [n] rounds of 429, then an outcome that is no 429. *)
Lemma consultar_after_429 (n : nat) :
  forall (depth : nat) (cnpj : str) (c c' c'' : conn) (l : list event)
         (o : result response),
  rejected (clean_cnpj cnpj) = false ->
  after_429 requests_get n (registry_url (clean_cnpj cnpj)) c = Some c' ->
  requests_get c' (registry_url (clean_cnpj cnpj)) = (o, c'') ->
  is_429 o = false ->
  n <= depth ->
  consultar_cnpj_api requests_get depth cnpj (Build_world c l)
  = Some (answer (clean_cnpj cnpj) o,
          Build_world c'' (l ++ retry_rounds n (registry_url (clean_cnpj cnpj))
                             ++ [HttpGet (registry_url (clean_cnpj cnpj))])).
Proof.
  induction n as [|n IH]; intros depth cnpj c c' c'' l o Hok Hafter Hget Hno Hdepth.
  - simpl in Hafter. injection Hafter as <-.
    apply consultar_once; assumption.
  - simpl in Hafter.
    destruct (requests_get c (registry_url (clean_cnpj cnpj))) as [[r|e] c1] eqn:Hfirst;
      [|discriminate].
    destruct (status_code r =? 429)%Z eqn:H429; [|discriminate].
    apply Z.eqb_eq in H429.
    destruct depth as [|depth]; [lia|].
    rewrite (consultar_429 depth cnpj c c1 l r Hok Hfirst H429).
    rewrite (IH depth cnpj c1 c' c'' _ o Hok Hafter Hget Hno) by lia.
    rewrite except_answer. cbn [retry_rounds]. rewrite <- !app_assoc. reflexivity.
Qed.

(** The lookup sees its argument only through [clean_cnpj]. *)
Lemma consultar_clean (depth : nat) :
  forall (a b : str) (w : world conn),
  clean_cnpj a = clean_cnpj b ->
  consultar_cnpj_api requests_get depth a w
  = consultar_cnpj_api requests_get depth b w.
Proof.
  induction depth as [|depth IH]; intros a b w E.
  - cbn [consultar_cnpj_api]. rewrite E. reflexivity.
  - cbn [consultar_cnpj_api]. rewrite E.
    destruct (rejected (clean_cnpj b)); [reflexivity|].
    destruct (http_get requests_get (registry_url (clean_cnpj b)) w) as [[r|e] w1];
      [|reflexivity].
    destruct (status_code r =? 200)%Z; [reflexivity|].
    destruct (status_code r =? 429)%Z; [|reflexivity].
    rewrite (IH a b _ E). reflexivity.
Qed.

End LookupFacts.

Section LookupDepth.
Context {U : Unicode}.
Variable conn : Type.
Variable requests_get : conn -> str -> result response * conn.

(** The code never gives up by itself: while the transport answers 429,
    the lookup asks for one more nested call. *)
Lemma consultar_exhausted (n : nat) :
  forall (depth : nat) (cnpj : str) (c c' : conn) (l : list event),
  rejected (clean_cnpj cnpj) = false ->
  after_429 requests_get n (registry_url (clean_cnpj cnpj)) c = Some c' ->
  depth < n ->
  consultar_cnpj_api requests_get depth cnpj (Build_world c l) = None.
Proof.
  induction n as [|n IH]; intros depth cnpj c c' l Hok Hafter Hdepth; [lia|].
  simpl in Hafter.
  destruct (requests_get c (registry_url (clean_cnpj cnpj))) as [[r|e] c1] eqn:Hfirst;
    [|discriminate].
  destruct (status_code r =? 429)%Z eqn:H429; [|discriminate].
  apply Z.eqb_eq in H429.
  destruct depth as [|depth].
  - apply (consultar_429_exhausted conn requests_get cnpj c c1 l r Hok Hfirst H429).
  - rewrite (consultar_429 conn requests_get depth cnpj c c1 l r Hok Hfirst H429).
    rewrite (IH depth cnpj c1 c' _ Hok Hafter) by lia. reflexivity.
Qed.

End LookupDepth.

(* ================================================================= *)
(** ** The claims about the codec *)

(** C1, as the spec states it, fails: fifteen digits normalize to a code
    of length 14, and the guard of line 44 rejects them all the same,
    because [clean_cnpj] does not truncate. *)
Lemma validate_rejects_fifteen_digits :
  length (@normalize ascii_only (lit "123456789012345")) = 14 /\
  @clean_cnpj ascii_only (lit "123456789012345") = lit "123456789012345" /\
  @validate ascii_only (lit "123456789012345") = None.
Proof. repeat split; reflexivity. Qed.

(** C1 (amended): the guard at the top of [consultar_cnpj_api] succeeds
    exactly on the inputs whose digits, all of them and not only the first
    14, number exactly 14; it then yields these digits, which are the
    normalized form.  In terms of [normalize]: its length is 14 and the
    input has no fifteenth digit.  ["11.222.333/0001-81"] is accepted with
    the canonical code ["11222333000181"], ["123"] is rejected.  Where the
    guard fails the lookup answers with the invalid-input failure and
    leaves the world alone. *)
Theorem validate_exactly_14_digits {U : Unicode} (s : str) :
  (forall c, validate s = Some c <-> length (clean_cnpj s) = 14 /\ c = normalize s) /\
  (validate s = None <-> length (clean_cnpj s) <> 14) /\
  (length (clean_cnpj s) = 14 <->
   length (normalize s) = 14 /\ length (clean_cnpj s) <= 14) /\
  validate (lit "11.222.333/0001-81") = Some (lit "11222333000181") /\
  validate (lit "123") = None /\
  (forall (conn : Type) (requests_get : conn -> str -> result response * conn)
          (depth : nat) (w : world conn),
     validate s = None ->
     consultar_cnpj_api requests_get depth s w
     = Some (Return (error_dict (lit "CNPJ inválido. Digite 14 dígitos numéricos.")), w)).
Proof.
  assert (Hnorm : length (clean_cnpj s) <= 14 -> normalize s = clean_cnpj s).
  { intros H. rewrite normalize_firstn. apply firstn_all2, H. }
  assert (Hsome : forall c, validate s = Some c <->
                            length (clean_cnpj s) = 14 /\ c = normalize s).
  { intros c. unfold validate. rewrite rejected_clean.
    destruct (length (clean_cnpj s) =? 14) eqn:E; cbn [negb].
    - apply Nat.eqb_eq in E. rewrite Hnorm by lia. split.
      + intros H. injection H as <-. auto.
      + intros [_ ->]. reflexivity.
    - apply Nat.eqb_neq in E. split; [discriminate | intros [E' _]; contradiction]. }
  assert (Hnone : validate s = None <-> length (clean_cnpj s) <> 14).
  { unfold validate. rewrite rejected_clean.
    destruct (length (clean_cnpj s) =? 14) eqn:E; cbn [negb].
    - apply Nat.eqb_eq in E. split; [discriminate | contradiction].
    - apply Nat.eqb_neq in E. split; auto. }
  split; [exact Hsome|]. split; [exact Hnone|].
  split.
  { split.
    - intros E. rewrite Hnorm; lia.
    - intros [E Hle]. rewrite Hnorm in E; assumption. }
  split.
  { unfold validate. rewrite rejected_clean. unfold clean_cnpj.
    rewrite re_sub_ascii by reflexivity. reflexivity. }
  split.
  { unfold validate. rewrite rejected_clean. unfold clean_cnpj.
    rewrite re_sub_ascii by reflexivity. reflexivity. }
  intros conn requests_get depth w H.
  fold INVALID_CNPJ. apply consultar_rejected.
  unfold validate in H. destruct (rejected (clean_cnpj s)); [reflexivity | discriminate].
Qed.

(** C4: for every input, formatting the normalized form gives at most 18
    characters, and stripping the non-digits of the result gives the
    normalized form back, which is the first 14 digits of the input.
    [format_cnpj] normalizes by itself, so it gives the same on the input
    and on its normalized form. *)
Theorem format_normalize_roundtrip {U : Unicode} (s : str) :
  length (format_cnpj (normalize s)) <= 18 /\
  clean_cnpj (format_cnpj (normalize s)) = normalize s /\
  normalize s = firstn 14 (clean_cnpj s) /\
  format_cnpj (normalize s) = format_cnpj s.
Proof.
  rewrite !format_cnpj_with_separators, normalize_idempotent.
  repeat split.
  - apply with_separators_length, normalize_length.
  - apply clean_with_separators, normalize_decimal.
  - apply normalize_firstn.
Qed.

(** C5: [format_cnpj] writes ['.'], ['.'], ['/'] and ['-'] after the 2nd,
    5th, 8th and 12th digit, each only when a digit follows it: on every
    input it is the spec's [with_separators] of the normalized digits, and
    on a sequence of at most 14 digits of these digits themselves.  So
    ["11222333000181"] gives ["11.222.333/0001-81"], ["112"] gives
    ["11.2"], and the empty string gives the empty string. *)
Theorem format_cnpj_places_separators {U : Unicode} :
  (forall s, format_cnpj s = with_separators 0 (normalize s)) /\
  (forall d, forallb is_decimal d = true -> length d <= 14 ->
             format_cnpj d = with_separators 0 d) /\
  format_cnpj (lit "11222333000181") = lit "11.222.333/0001-81" /\
  format_cnpj (lit "112") = lit "11.2" /\
  format_cnpj (lit "") = lit "".
Proof.
  split; [exact format_cnpj_with_separators|].
  split.
  { intros d Hd Hlen. rewrite format_cnpj_with_separators, normalize_fixed; auto. }
  repeat split; rewrite format_cnpj_with_separators; unfold normalize;
    rewrite re_sub_ascii by reflexivity; reflexivity.
Qed.

(** The three digits ["112"], in a database that knows the ASCII digits. *)
Lemma format_cnpj_places_separators_witness :
  @format_cnpj ascii_only (lit "112") = [49; 49; 46; 50]%N.
Proof.
  apply (proj1 (proj2 (@format_cnpj_places_separators ascii_only)) (lit "112")).
  - reflexivity.
  - vm_compute. lia.
Defined.

(* ================================================================= *)
(** ** The claims about the lookup *)

Section LookupClaims.
Context {U : Unicode}.
Variable conn : Type.
Variable requests_get : conn -> str -> result response * conn.

(** C2: for a canonical code and a transport that answers 429 to the first
    [n] requests and something else to the next one, the lookup, given the
    [n] nested calls it needs, logs for each 429 the same request, the
    rate-limit notice and a sleep of 60 seconds, then the same request once
    more, and returns what it returns when that last outcome comes first:
    the parsed body when it is a 200 response.  This holds for every [n]:
    the code has no cap of its own, and with fewer than [n] nested calls
    allowed it has no result yet. *)
Theorem retry_on_429 (n depth : nat) (code : str) (c c' c'' : conn)
    (l : list event) (o : result response) :
  is_canonical code = true ->
  after_429 requests_get n (registry_url code) c = Some c' ->
  requests_get c' (registry_url code) = (o, c'') ->
  is_429 o = false ->
  (n <= depth ->
   consultar_cnpj_api requests_get depth code (Build_world c l)
   = Some (answer code o,
           Build_world c'' (l ++ retry_rounds n (registry_url code)
                              ++ [HttpGet (registry_url code)]))) /\
  (forall l0 depth0,
   consultar_cnpj_api requests_get depth0 code (Build_world c' l0)
   = Some (answer code o, Build_world c'' (l0 ++ [HttpGet (registry_url code)]))) /\
  (depth < n ->
   consultar_cnpj_api requests_get depth code (Build_world c l) = None) /\
  (forall r body,
   o = Return r -> status_code r = 200%Z -> json r = Return body ->
   answer code o = Return body).
Proof.
  intros Hcode Hafter Hget Hno.
  pose proof (rejected_canonical code Hcode) as Hok.
  pose proof (clean_canonical code Hcode) as Hclean.
  split; [|split; [|split]]; cycle 3.
  { intros r body -> H200 Hbody. cbn [answer]. rewrite H200, Hbody. reflexivity. }
  - intros Hdepth.
    pose proof (consultar_after_429 conn requests_get n depth code c c' c'' l o Hok) as H.
    rewrite Hclean in H. apply H; assumption.
  - intros l0 depth0.
    pose proof (consultar_once conn requests_get depth0 code c' c'' l0 o Hok) as H.
    rewrite Hclean in H. apply H; assumption.
  - intros Hdepth.
    pose proof (consultar_exhausted conn requests_get n depth code c c' l Hok) as H.
    rewrite Hclean in H. apply H; assumption.
Qed.

(** C3: an input whose digits do not number exactly 14 gets the failure
    ["CNPJ inválido. Digite 14 dígitos numéricos."] and the world is left as
    it was: no request is made, nothing is logged. *)
Theorem invalid_input_makes_no_request (depth : nat) (cnpj : str) (w : world conn) :
  length (clean_cnpj cnpj) <> 14 ->
  consultar_cnpj_api requests_get depth cnpj w
  = Some (Return (error_dict (lit "CNPJ inválido. Digite 14 dígitos numéricos.")), w).
Proof.
  intros H.
  pose proof (consultar_rejected conn requests_get depth cnpj w) as Hrej.
  unfold INVALID_CNPJ in Hrej. apply Hrej.
  rewrite rejected_clean. apply Nat.eqb_neq in H. rewrite H. reflexivity.
Qed.

(** C6: for a canonical code and a first response with status 200, 404 or
    any status other than 200, 404 and 429, the lookup makes this one
    request and returns, in turn, the parsed body, the failure
    ["CNPJ {code} não encontrado ou inválido na base da API."], and the
    failure ["Erro ao consultar {code}: Status {status}"]. *)
Theorem status_classification (depth : nat) (code : str) (c c' : conn)
    (l : list event) (r : response) :
  is_canonical code = true ->
  requests_get c (registry_url code) = (Return r, c') ->
  (status_code r = 200%Z -> forall body, json r = Return body ->
   consultar_cnpj_api requests_get depth code (Build_world c l)
   = Some (Return body,
           Build_world c' (l ++ [HttpGet (lit "https://open.cnpja.com/office/" ++ code)]))) /\
  (status_code r = 404%Z ->
   consultar_cnpj_api requests_get depth code (Build_world c l)
   = Some (Return (error_dict
             (lit "CNPJ " ++ code ++ lit " não encontrado ou inválido na base da API.")),
           Build_world c' (l ++ [HttpGet (lit "https://open.cnpja.com/office/" ++ code)]))) /\
  (status_code r <> 200%Z -> status_code r <> 404%Z -> status_code r <> 429%Z ->
   consultar_cnpj_api requests_get depth code (Build_world c l)
   = Some (Return (error_dict
             (lit "Erro ao consultar " ++ code ++ lit ": Status "
                ++ str_of_int (status_code r))),
           Build_world c' (l ++ [HttpGet (lit "https://open.cnpja.com/office/" ++ code)]))).
Proof.
  intros Hcode Hget.
  pose proof (rejected_canonical code Hcode) as Hok.
  pose proof (clean_canonical code Hcode) as Hclean.
  pose proof (consultar_once conn requests_get depth code c c' l (Return r) Hok) as H.
  rewrite Hclean in H. specialize (H Hget).
  fold (registry_url code).
  repeat split.
  - intros H200 body Hbody. rewrite H by (cbn [is_429]; rewrite H200; reflexivity).
    cbn [answer]. rewrite H200, Hbody. reflexivity.
  - intros H404. rewrite H by (cbn [is_429]; rewrite H404; reflexivity).
    cbn [answer]. rewrite H404. reflexivity.
  - intros N200 N404 N429.
    apply Z.eqb_neq in N200, N404, N429.
    rewrite H by (cbn [is_429]; exact N429).
    cbn [answer]. rewrite N200, N404. reflexivity.
Qed.

(** C7: for a canonical code, when the request raises a
    [RequestException] (what [requests] raises for DNS, timeout, refused
    connection and TLS failures), the lookup returns the failure
    ["Erro de conexão: {details}"]; it returns and does not raise, and the
    log shows the one request and nothing after it: no notice, no sleep, no
    second request. *)
Theorem connection_error_is_terminal (depth : nat) (code : str) (c c' : conn)
    (l : list event) (details : str) :
  is_canonical code = true ->
  requests_get c (registry_url code) = (Raise (RequestException details), c') ->
  consultar_cnpj_api requests_get depth code (Build_world c l)
  = Some (Return (error_dict (lit "Erro de conexão: " ++ details)),
          Build_world c' (l ++ [HttpGet (registry_url code)])).
Proof.
  intros Hcode Hget.
  pose proof (consultar_once conn requests_get depth code c c' l
                (Raise (RequestException details))
                (rejected_canonical code Hcode)) as H.
  rewrite (clean_canonical code Hcode) in H.
  apply H; [exact Hget | reflexivity].
Qed.

(** C8: for a canonical code, the lookup of its formatted rendering is the
    lookup of the code itself, at every depth and in every world: the same
    result and the same world after it, so the same requests to the same
    URL.  The lookup strips the rendering back to the code before use. *)
Theorem formatting_does_not_change_lookup (depth : nat) (code : str) (w : world conn) :
  is_canonical code = true ->
  clean_cnpj (format_cnpj code) = code /\
  registry_url (clean_cnpj (format_cnpj code)) = registry_url code /\
  consultar_cnpj_api requests_get depth (format_cnpj code) w
  = consultar_cnpj_api requests_get depth code w.
Proof.
  intros Hcode.
  pose proof (clean_format_canonical code Hcode) as H.
  repeat split.
  - exact H.
  - rewrite H. reflexivity.
  - apply consultar_clean. rewrite H. symmetry. apply clean_canonical, Hcode.
Qed.

End LookupClaims.

(** 429 on the first call and 200 on the second: the record of the second
    response comes back, after one notice and one sleep of 60 seconds. *)
Lemma retry_on_429_witness :
  consultar_cnpj_api (U := ascii_only) scripted 1 (lit "11222333000181")
    (Build_world [http_no_json 429; http_response 200 sample_record] [])
  = Some (Return sample_record,
          Build_world []
            [ HttpGet (lit "https://open.cnpja.com/office/11222333000181");
              StWarning (lit "Muitas requisições (429). Tentando novamente em 60 segundos...");
              TimeSleep 60;
              HttpGet (lit "https://open.cnpja.com/office/11222333000181") ]).
Proof.
  apply (proj1 (@retry_on_429 ascii_only _ scripted 1 1 (lit "11222333000181")
                  [http_no_json 429; http_response 200 sample_record]
                  [http_response 200 sample_record] [] []
                  (http_response 200 sample_record)
                  eq_refl eq_refl eq_refl eq_refl)).
  apply le_n.
Defined.

Lemma invalid_input_makes_no_request_witness :
  consultar_cnpj_api (U := ascii_only) scripted 0 (lit "123")
    (Build_world [http_response 200 sample_record] [])
  = Some (Return (error_dict (lit "CNPJ inválido. Digite 14 dígitos numéricos.")),
          Build_world [http_response 200 sample_record] []).
Proof.
  apply (@invalid_input_makes_no_request ascii_only _ scripted 0 (lit "123")).
  vm_compute. discriminate.
Defined.

(** Status 404 for the code ["00000000000000"]: the failure names the code. *)
Lemma status_classification_witness :
  consultar_cnpj_api (U := ascii_only) scripted 0 (lit "00000000000000")
    (Build_world [http_no_json 404] [])
  = Some (Return (error_dict
            (lit "CNPJ 00000000000000 não encontrado ou inválido na base da API.")),
          Build_world [] [HttpGet (lit "https://open.cnpja.com/office/00000000000000")])
  /\
  consultar_cnpj_api (U := ascii_only) scripted 0 (lit "00000000000000")
    (Build_world [http_response 200 sample_record] [])
  = Some (Return sample_record,
          Build_world [] [HttpGet (lit "https://open.cnpja.com/office/00000000000000")])
  /\
  consultar_cnpj_api (U := ascii_only) scripted 0 (lit "00000000000000")
    (Build_world [http_no_json 503] [])
  = Some (Return (error_dict (lit "Erro ao consultar 00000000000000: Status 503")),
          Build_world [] [HttpGet (lit "https://open.cnpja.com/office/00000000000000")]).
Proof.
  split; [|split].
  - apply (proj1 (proj2 (@status_classification ascii_only _ scripted 0
                           (lit "00000000000000") [http_no_json 404] [] []
                           {| status_code := 404; json := Raise (RequestException (lit "Expecting value: line 1 column 1 (char 0)")) |}
                           eq_refl eq_refl))).
    reflexivity.
  - apply (proj1 (@status_classification ascii_only _ scripted 0
                    (lit "00000000000000") [http_response 200 sample_record] [] []
                    {| status_code := 200; json := Return sample_record |}
                    eq_refl eq_refl)); reflexivity.
  - apply (proj2 (proj2 (@status_classification ascii_only _ scripted 0
                           (lit "00000000000000") [http_no_json 503] [] []
                           {| status_code := 503; json := Raise (RequestException (lit "Expecting value: line 1 column 1 (char 0)")) |}
                           eq_refl eq_refl))); discriminate.
Defined.

Lemma connection_error_is_terminal_witness :
  consultar_cnpj_api (U := ascii_only) scripted 5 (lit "11222333000181")
    (Build_world [] [])
  = Some (Return (error_dict (lit "Erro de conexão: connection refused")),
          Build_world [] [HttpGet (lit "https://open.cnpja.com/office/11222333000181")]).
Proof.
  apply (@connection_error_is_terminal ascii_only _ scripted 5 (lit "11222333000181")
           [] [] [] (lit "connection refused") eq_refl eq_refl).
Defined.

Lemma formatting_does_not_change_lookup_witness :
  @format_cnpj ascii_only (lit "11222333000181") = lit "11.222.333/0001-81" /\
  consultar_cnpj_api (U := ascii_only) scripted 0 (lit "11.222.333/0001-81")
    (Build_world [http_response 200 sample_record] [])
  = consultar_cnpj_api (U := ascii_only) scripted 0 (lit "11222333000181")
    (Build_world [http_response 200 sample_record] []).
Proof.
  split; [reflexivity|].
  apply (proj2 (proj2 (@formatting_does_not_change_lookup ascii_only _ scripted 0
                         (lit "11222333000181")
                         (Build_world [http_response 200 sample_record] [])
                         eq_refl))).
Defined.

(* ================================================================= *)
(** ** Properties of the extraction *)

Lemma bind_Return_inv {A B} (m : result A) (k : A -> result B) (b : B) :
  bind m k = Return b -> exists a, m = Return a /\ k a = Return b.
Proof. destruct m as [a|e]; simpl; [eauto | discriminate]. Qed.

Ltac invert_binds H :=
  repeat match type of H with
  | bind _ _ = Return _ =>
    let a := fresh "a" in
    let Ha := fresh "Ha" in
    apply bind_Return_inv in H; destruct H as (a & Ha & H); cbv beta in H
  end.

Section ExtractFacts.
Context {U : Unicode} {R : Runtime}.

Lemma get_sub (m : dict) (k : str) :
  absent_or is_dict m k = true ->
  get (VDict m) k (VDict []) = Return (VDict (sub m k)).
Proof.
  unfold absent_or, sub, get.
  destruct (dict_get m k) as [[]|]; simpl; intros H;
    try discriminate; reflexivity.
Qed.

Lemma get_dict (m : dict) (k : str) (default : value) :
  get (VDict m) k default
  = Return (match dict_get m k with Some x => x | None => default end).
Proof. reflexivity. Qed.

Lemma format_taxId (m : dict) :
  absent_or is_str m (lit "taxId") = true ->
  exists s,
    format_cnpj_value
      (match dict_get m (lit "taxId") with Some x => x | None => NA end)
    = Return (VStr s).
Proof.
  unfold absent_or.
  destruct (dict_get m (lit "taxId")) as [[]|]; simpl; intros H;
    try discriminate; eauto.
Qed.

Lemma abertura_ok (m : dict) :
  absent_or founded_ok m (lit "founded") = true ->
  exists v,
    data_de_abertura
      (match dict_get m (lit "founded") with Some x => x | None => VNone end)
    = Return v /\
    (dict_get m (lit "founded") = None -> v = NA) /\
    (forall s, dict_get m (lit "founded") = Some (VStr s) ->
               strptime_Ymd s = None -> v = NA).
Proof.
  unfold absent_or, founded_ok, data_de_abertura.
  destruct (dict_get m (lit "founded")) as [v|]; [|intros _].
  - destruct (truthy v) eqn:Ht; simpl.
    + destruct v; try discriminate. intros _.
      destruct (strptime_Ymd s) as [dt|] eqn:Hd.
      * eexists. split; [reflexivity|]. split; [discriminate|].
        intros s' E. injection E as <-. congruence.
      * exists NA. repeat split.
    + intros _. exists NA. repeat split.
  - exists NA. repeat split.
Qed.

Lemma members_info_ok (items : list value) :
  forallb member_ok items = true ->
  exists names,
    members_info items = Return names /\ forallb is_str names = true.
Proof.
  induction items as [|member rest IH]; cbn [members_info forallb].
  - intros _. exists []. split; reflexivity.
  - intros H. apply andb_prop in H. destruct H as [Hm Hrest].
    destruct (IH Hrest) as (names & Hnames & Hstr).
    destruct member; try discriminate Hm. cbn [member_ok] in Hm.
    apply andb_prop in Hm. destruct Hm as [Hperson Hname].
    rewrite (get_sub d (lit "person") Hperson). cbn [bind].
    rewrite get_dict. cbn [bind]. rewrite Hnames. cbn [bind].
    eexists. split; [reflexivity|]. cbn [forallb]. rewrite Hstr.
    unfold absent_or in Hname.
    destruct (dict_get (sub d (lit "person")) (lit "name")); [rewrite Hname|];
      reflexivity.
Qed.

Lemma join_ok (sep : str) (names : list value) :
  forallb is_str names = true -> exists s, join sep names = Return s.
Proof.
  induction names as [|v rest IH]; cbn [join forallb]; [eauto|].
  intros H. apply andb_prop in H. destruct H as [Hv Hrest].
  destruct v; try discriminate Hv.
  destruct (IH Hrest) as (tail & Htail).
  destruct rest; [eauto|]. rewrite Htail. cbn [bind]. eauto.
Qed.

Lemma socios_ok (m : dict) :
  absent_or members_ok m (lit "members") = true ->
  exists v,
    socios (match dict_get m (lit "members") with Some x => x | None => VList [] end)
    = Return v /\
    (dict_get m (lit "members") = None -> v = NA).
Proof.
  unfold absent_or, members_ok, socios.
  destruct (dict_get m (lit "members")) as [v|]; [|intros _].
  - destruct (truthy v) eqn:Ht; cbn [negb orb].
    + destruct v; try discriminate. intros H.
      destruct (members_info_ok l H) as (names & Hnames & Hstr).
      destruct (join_ok (lit ", ") names Hstr) as (joined & Hjoin).
      cbn [iterate bind]. rewrite Hnames. cbn [bind]. rewrite Hjoin. cbn [bind].
      eexists. split; [reflexivity | discriminate].
    + intros _. exists NA. split; [reflexivity | discriminate].
  - exists NA. split; reflexivity.
Qed.

(** Without the key ["error"], the extraction that returns returns a
    dictionary and no error. *)
Lemma extract_without_error (m : dict) (x y : value) :
  dict_get m (lit "error") = None ->
  extract_data_for_display (VDict m) = Return (x, y) ->
  y = VNone /\ exists rec, x = VDict rec.
Proof.
  intros Herr H. unfold extract_data_for_display, contains, dict_has in H.
  rewrite Herr in H. cbn [bind] in H.
  invert_binds H. injection H as <- <-. eauto.
Qed.

Lemma extract_with_error (m : dict) (e : value) :
  dict_get m (lit "error") = Some e ->
  extract_data_for_display (VDict m) = Return (VNone, e).
Proof.
  intros Herr. unfold extract_data_for_display, contains, dict_has, subscript.
  rewrite Herr. reflexivity.
Qed.

End ExtractFacts.

(* ================================================================= *)
(** ** The claims about the extraction *)

(** C9, as the spec states it, fails.  A mapping whose ["company"] is
    [null] has no key ["error"], and the extraction raises on it.  On the
    empty mapping the extraction returns, and the field
    ["CNAE Principal"] is ["N/A - N/A"], not the placeholder; the field
    ["CNPJ"] is the empty string, because [format_cnpj] strips the
    default ["N/A"] it is given. *)
Lemma extract_raises_on_null_company :
  dict_has [(lit "company", VNone)] (lit "error") = false /\
  @extract_data_for_display ascii_only sample_runtime
    (VDict [(lit "company", VNone)]) = Raise AttributeError /\
  @extract_data_for_display ascii_only sample_runtime (VDict [])
  = Return (VDict [ (lit "CNPJ", VStr (lit ""));
                    (lit "Razão Social", VStr (lit "N/A"));
                    (lit "Nome Fantasia", VStr (lit "N/A"));
                    (lit "Data de Abertura", VStr (lit "N/A"));
                    (lit "Situação Cadastral", VStr (lit "N/A"));
                    (lit "Logradouro", VStr (lit "N/A"));
                    (lit "Número", VStr (lit "N/A"));
                    (lit "CNAE Principal", VStr (lit "N/A - N/A"));
                    (lit "Sócios", VStr (lit "N/A")) ],
            VNone).
Proof. repeat split; vm_compute; reflexivity. Qed.

Section ExtractClaims.
Context {U : Unicode} {R : Runtime}.

(** The extraction on a well-shaped mapping without the key ["error"]:
    the record it returns, field by field. *)
Lemma extract_well_shaped (m : dict) :
  dict_get m (lit "error") = None ->
  well_shaped m = true ->
  exists cnpj razao_social nome_fantasia abertura situacao logradouro numero
         cnae socios_value,
    extract_data_for_display (VDict m)
    = Return (VDict [ (lit "CNPJ", cnpj);
                      (lit "Razão Social", razao_social);
                      (lit "Nome Fantasia", nome_fantasia);
                      (lit "Data de Abertura", abertura);
                      (lit "Situação Cadastral", situacao);
                      (lit "Logradouro", logradouro);
                      (lit "Número", numero);
                      (lit "CNAE Principal", cnae);
                      (lit "Sócios", socios_value) ],
              VNone) /\
    format_cnpj_value
      (match dict_get m (lit "taxId") with Some x => x | None => NA end)
    = Return cnpj /\
    (dict_get (sub m (lit "company")) (lit "name") = None -> razao_social = NA) /\
    (dict_get m (lit "alias") = None -> nome_fantasia = NA) /\
    (dict_get m (lit "founded") = None -> abertura = NA) /\
    (forall s, dict_get m (lit "founded") = Some (VStr s) ->
               strptime_Ymd s = None -> abertura = NA) /\
    (dict_get (sub m (lit "status")) (lit "text") = None -> situacao = NA) /\
    (dict_get (sub m (lit "address")) (lit "street") = None -> logradouro = NA) /\
    (dict_get (sub m (lit "address")) (lit "number") = None -> numero = NA) /\
    (exists id text,
       cnae = VStr (id ++ lit " - " ++ text) /\
       (dict_get (sub m (lit "mainActivity")) (lit "id") = None -> id = lit "N/A") /\
       (dict_get (sub m (lit "mainActivity")) (lit "text") = None -> text = lit "N/A")) /\
    (dict_get (sub m (lit "company")) (lit "members") = None -> socios_value = NA).
Proof.
  intros Herr Hws. unfold well_shaped in Hws.
  apply andb_prop in Hws. destruct Hws as [Hws Hmembers].
  apply andb_prop in Hws. destruct Hws as [Hws Hfounded].
  apply andb_prop in Hws. destruct Hws as [Hws HtaxId].
  apply andb_prop in Hws. destruct Hws as [Hws Hactivity].
  apply andb_prop in Hws. destruct Hws as [Hws Hstatus].
  apply andb_prop in Hws. destruct Hws as [Hcompany Haddress].
  destruct (format_taxId m HtaxId) as (cnpj & Hcnpj).
  destruct (abertura_ok m Hfounded) as (abertura & Habertura & Habsent & Hbad).
  destruct (socios_ok (sub m (lit "company")) Hmembers) as (soc & Hsoc & Hnone).
  unfold extract_data_for_display, contains, dict_has.
  rewrite Herr. cbn [bind].
  rewrite !get_sub by assumption. cbn [bind].
  rewrite get_dict. cbn [bind]. rewrite Hcnpj. cbn [bind].
  do 3 (rewrite get_dict; cbn [bind]).
  rewrite Habertura. cbn [bind].
  do 6 (rewrite get_dict; cbn [bind]).
  rewrite Hsoc. cbn [bind].
  do 9 eexists. split; [reflexivity|].
  repeat split.
  - intros ->. reflexivity.
  - intros ->. reflexivity.
  - exact Habsent.
  - exact Hbad.
  - intros ->. reflexivity.
  - intros ->. reflexivity.
  - intros ->. reflexivity.
  - do 2 eexists. split; [reflexivity|]. split; intros ->; reflexivity.
  - exact Hnone.
Qed.

(** C9 (amended): for every mapping without the key ["error"] in which
    what is present has the type the extraction expects (["company"],
    ["address"], ["status"], ["mainActivity"] and a member's ["person"]
    are mappings, ["taxId"] and a member's ["name"] are strings,
    ["founded"] is a string or falsy, ["members"] is a list of mappings
    or falsy), the extraction returns the nine display fields and no
    error.  ["Razão Social"], ["Nome Fantasia"], ["Situação Cadastral"],
    ["Logradouro"], ["Número"] and ["Sócios"] are ["N/A"] when their source
    key is absent; ["Data de Abertura"] is ["N/A"] when ["founded"] is
    absent or is a string that is no date; ["CNAE Principal"] is
    ["{id} - {text}"] with ["N/A"] for each absent part.  Nothing is said
    of the value of the field ["CNPJ"]. *)
Theorem missing_fields_degrade_to_NA (m : dict) :
  dict_get m (lit "error") = None ->
  well_shaped m = true ->
  exists cnpj razao_social nome_fantasia abertura situacao logradouro numero
         cnae socios_value,
    extract_data_for_display (VDict m)
    = Return (VDict [ (lit "CNPJ", cnpj);
                      (lit "Razão Social", razao_social);
                      (lit "Nome Fantasia", nome_fantasia);
                      (lit "Data de Abertura", abertura);
                      (lit "Situação Cadastral", situacao);
                      (lit "Logradouro", logradouro);
                      (lit "Número", numero);
                      (lit "CNAE Principal", cnae);
                      (lit "Sócios", socios_value) ],
              VNone) /\
    (dict_get (sub m (lit "company")) (lit "name") = None -> razao_social = NA) /\
    (dict_get m (lit "alias") = None -> nome_fantasia = NA) /\
    (dict_get m (lit "founded") = None -> abertura = NA) /\
    (forall s, dict_get m (lit "founded") = Some (VStr s) ->
               strptime_Ymd s = None -> abertura = NA) /\
    (dict_get (sub m (lit "status")) (lit "text") = None -> situacao = NA) /\
    (dict_get (sub m (lit "address")) (lit "street") = None -> logradouro = NA) /\
    (dict_get (sub m (lit "address")) (lit "number") = None -> numero = NA) /\
    (exists id text,
       cnae = VStr (id ++ lit " - " ++ text) /\
       (dict_get (sub m (lit "mainActivity")) (lit "id") = None -> id = lit "N/A") /\
       (dict_get (sub m (lit "mainActivity")) (lit "text") = None -> text = lit "N/A")) /\
    (dict_get (sub m (lit "company")) (lit "members") = None -> socios_value = NA).
Proof.
  intros Herr Hws.
  destruct (extract_well_shaped m Herr Hws)
    as (cnpj & rs & nf & ab & si & lo & nu & cn & so & H & _ & Hrest).
  exists cnpj, rs, nf, ab, si, lo, nu, cn, so. split; [exact H | exact Hrest].
Qed.

(** X1: with ["taxId"] absent the field ["CNPJ"] is the empty string: the
    default ["N/A"] of line 79 goes through [format_cnpj], which keeps
    digits only. *)
Theorem absent_taxId_renders_empty (m : dict) :
  dict_get m (lit "error") = None ->
  well_shaped m = true ->
  dict_get m (lit "taxId") = None ->
  exists fields,
    extract_data_for_display (VDict m)
    = Return (VDict ((lit "CNPJ", VStr (lit "")) :: fields), VNone).
Proof.
  intros Herr Hws Habsent.
  destruct (extract_well_shaped m Herr Hws)
    as (cnpj & rs & nf & ab & si & lo & nu & cn & so & H & Hcnpj & _).
  rewrite Habsent in Hcnpj. cbn [format_cnpj_value NA] in Hcnpj.
  rewrite format_cnpj_with_separators in Hcnpj. unfold normalize in Hcnpj.
  rewrite re_sub_ascii in Hcnpj by reflexivity.
  injection Hcnpj as <-. eexists. exact H.
Qed.

(** C10: a mapping with the key ["error"] is taken for a failure wherever
    it comes from.  The extraction returns [(None, m["error"])] on it, the
    same as on the dictionary [{"error": m["error"]}] of a failed lookup;
    without the key, an extraction that returns returns a display record
    and no error; and the lookup hands the body of a 200 response to its
    caller as it is, with the key when the body has it. *)
Theorem error_key_is_the_sole_discriminator
    (conn : Type) (requests_get : conn -> str -> result response * conn) :
  (forall (m : dict) (e : value),
     dict_get m (lit "error") = Some e ->
     extract_data_for_display (VDict m) = Return (VNone, e) /\
     extract_data_for_display (VDict m)
     = extract_data_for_display (VDict [(lit "error", e)])) /\
  (forall (m : dict) (x y : value),
     dict_get m (lit "error") = None ->
     extract_data_for_display (VDict m) = Return (x, y) ->
     y = VNone /\ exists rec, x = VDict rec) /\
  (forall (depth : nat) (code : str) (c c' : conn) (l : list event)
          (r : response) (m : dict),
     is_canonical code = true ->
     requests_get c (registry_url code) = (Return r, c') ->
     status_code r = 200%Z ->
     json r = Return (VDict m) ->
     consultar_cnpj_api requests_get depth code (Build_world c l)
     = Some (Return (VDict m),
             Build_world c' (l ++ [HttpGet (registry_url code)]))).
Proof.
  split; [|split].
  - intros m e Herr. split.
    + apply extract_with_error, Herr.
    + rewrite (extract_with_error m e Herr). symmetry.
      apply extract_with_error. reflexivity.
  - intros m x y Herr Hret. apply (extract_without_error m x y Herr Hret).
  - intros depth code c c' l r m Hcode Hget H200 Hjson.
    pose proof (consultar_once conn requests_get depth code c c' l (Return r)
                  (rejected_canonical code Hcode)) as H.
    rewrite (clean_canonical code Hcode) in H.
    rewrite H; [|exact Hget | cbn [is_429]; rewrite H200; reflexivity].
    cbn [answer]. rewrite H200, Hjson. reflexivity.
Qed.

End ExtractClaims.

(** The sample record has no status: the field is the placeholder. *)
Lemma missing_fields_degrade_to_NA_witness :
  exists cnpj razao_social nome_fantasia abertura logradouro numero cnae socios_value,
    @extract_data_for_display ascii_only sample_runtime (VDict sample_fields)
    = Return (VDict [ (lit "CNPJ", cnpj);
                      (lit "Razão Social", razao_social);
                      (lit "Nome Fantasia", nome_fantasia);
                      (lit "Data de Abertura", abertura);
                      (lit "Situação Cadastral", VStr (lit "N/A"));
                      (lit "Logradouro", logradouro);
                      (lit "Número", numero);
                      (lit "CNAE Principal", cnae);
                      (lit "Sócios", socios_value) ],
              VNone).
Proof.
  destruct (@missing_fields_degrade_to_NA ascii_only sample_runtime sample_fields
              eq_refl eq_refl)
    as (cnpj & rs & nf & ab & si & lo & nu & cn & so & H & _ & _ & _ & _ & Hsi & _).
  rewrite (Hsi eq_refl) in H.
  exists cnpj, rs, nf, ab, lo, nu, cn, so. exact H.
Defined.

Lemma absent_taxId_renders_empty_witness :
  exists fields,
    @extract_data_for_display ascii_only sample_runtime (VDict [])
    = Return (VDict ((lit "CNPJ", VStr (lit "")) :: fields), VNone).
Proof.
  apply (@absent_taxId_renders_empty ascii_only sample_runtime []); reflexivity.
Defined.

(** A 200 response whose body has the key ["error"]: the lookup returns
    the body, and the extraction reports its ["error"]. *)
Lemma error_key_is_the_sole_discriminator_witness :
  consultar_cnpj_api (U := ascii_only) scripted 0 (lit "11222333000181")
    (Build_world [http_response 200 (VDict error_fields)] [])
  = Some (Return (VDict error_fields),
          Build_world [] [HttpGet (registry_url (lit "11222333000181"))]) /\
  @extract_data_for_display ascii_only sample_runtime (VDict error_fields)
  = Return (VNone, VStr (lit "quota exceeded")).
Proof.
  pose proof (@error_key_is_the_sole_discriminator ascii_only sample_runtime _ scripted)
    as (Herror & _ & Hbody).
  split.
  - apply (Hbody 0 (lit "11222333000181") [http_response 200 (VDict error_fields)] [] []
             {| status_code := 200; json := Return (VDict error_fields) |});
      reflexivity.
  - apply (Herror error_fields (VStr (lit "quota exceeded"))). reflexivity.
Defined.

(* ================================================================= *)
(** ** Further properties of the codec *)

Section CodecExtras.
Context {U : Unicode}.

Lemma str_eqb_eq (a b : str) : str_eqb a b = true <-> a = b.
Proof.
  revert b. induction a as [|x a IH]; intros [|y b]; simpl;
    try (split; [discriminate | discriminate]); [tauto|].
  rewrite andb_true_iff, N.eqb_eq, IH. split.
  - intros [-> ->]. reflexivity.
  - intros E. injection E as -> ->. auto.
Qed.

Lemma clean_format (s : str) : clean_cnpj (format_cnpj s) = normalize s.
Proof.
  rewrite format_cnpj_with_separators.
  apply clean_with_separators, normalize_decimal.
Qed.

Lemma normalize_format (s : str) : normalize (format_cnpj s) = normalize s.
Proof.
  rewrite normalize_firstn, clean_format.
  apply firstn_all2, normalize_length.
Qed.


Lemma normalize_length_min (s : str) :
  length (normalize s) = Nat.min 14 (length (clean_cnpj s)).
Proof. rewrite normalize_firstn. apply length_firstn. Qed.

(** X2: formatting a formatted code changes nothing. *)
Theorem format_cnpj_idempotent (s : str) :
  format_cnpj (format_cnpj s) = format_cnpj s.
Proof.
  rewrite (format_cnpj_with_separators (format_cnpj s)), normalize_format.
  symmetry. apply format_cnpj_with_separators.
Qed.

(** X3: two inputs are formatted alike exactly when their first 14 digits
    are the same; whatever else they hold does not show. *)
Theorem format_cnpj_equal_iff (a b : str) :
  format_cnpj a = format_cnpj b
  <-> firstn 14 (clean_cnpj a) = firstn 14 (clean_cnpj b).
Proof.
  rewrite <- !normalize_firstn. split.
  - intros E. rewrite <- (clean_format a), <- (clean_format b), E. reflexivity.
  - intros E. rewrite !format_cnpj_with_separators, E. reflexivity.
Qed.

Lemma matches_canonical_shape (d : str) :
  forallb is_decimal d = true -> length d <= 14 ->
  matches_pattern (lit "XX.XXX.XXX/XXXX-XX") (with_separators 0 d)
  = (length d =? 14).
Proof.
  intros Hd Hlen.
  do 15 (destruct d as [|? d];
         [cbn [forallb] in Hd;
          repeat match goal with
                 | H : _ && _ = true |- _ => apply andb_prop in H; destruct H
                 end;
          cbn;
          repeat match goal with
                 | H : is_decimal ?c = true |- _ => rewrite H; clear H
                 end;
          reflexivity |]).
  simpl in Hlen. lia.
Qed.

(** X4: the result has the layout of the docstring, [XX.XXX.XXX/XXXX-XX],
    exactly when the input holds at least 14 digits. *)
Theorem format_cnpj_matches_docstring (s : str) :
  matches_pattern (lit "XX.XXX.XXX/XXXX-XX") (format_cnpj s) = true
  <-> 14 <= length (clean_cnpj s).
Proof.
  rewrite format_cnpj_with_separators,
    (matches_canonical_shape (normalize s) (normalize_decimal s) (normalize_length s)),
    Nat.eqb_eq, normalize_length_min.
  lia.
Qed.

End CodecExtras.

(* ================================================================= *)
(** ** Further properties of the lookup *)

Section LookupExtras.
Context {U : Unicode}.
Variable conn : Type.
Variable requests_get : conn -> str -> result response * conn.


(** Every result of the lookup comes from a run of this form. *)
Lemma consultar_inversion (depth : nat) :
  forall (cnpj : str) (c : conn) (l : list event) (res : result value)
         (w' : world conn),
  consultar_cnpj_api requests_get depth cnpj (Build_world c l) = Some (res, w') ->
  (rejected (clean_cnpj cnpj) = true /\
   res = Return (error_dict INVALID_CNPJ) /\ w' = Build_world c l) \/
  (rejected (clean_cnpj cnpj) = false /\
   exists (n : nat) (c1 c2 : conn) (o : result response),
     n <= depth /\
     after_429 requests_get n (registry_url (clean_cnpj cnpj)) c = Some c1 /\
     requests_get c1 (registry_url (clean_cnpj cnpj)) = (o, c2) /\
     is_429 o = false /\
     res = answer (clean_cnpj cnpj) o /\
     w' = Build_world c2 (l ++ retry_rounds n (registry_url (clean_cnpj cnpj))
                            ++ [HttpGet (registry_url (clean_cnpj cnpj))])).
Proof.
  induction depth as [|depth IH]; intros cnpj c l res w' H;
    destruct (rejected (clean_cnpj cnpj)) eqn:Hrej.
  - left. rewrite (consultar_rejected conn requests_get 0 cnpj _ Hrej) in H.
    injection H as <- <-. auto.
  - right. split; [reflexivity|].
    destruct (requests_get c (registry_url (clean_cnpj cnpj))) as [o c2] eqn:Hget.
    destruct (is_429 o) eqn:Ho.
    + destruct o as [r|e]; [|discriminate Ho]. cbn [is_429] in Ho.
      apply Z.eqb_eq in Ho.
      rewrite (consultar_429_exhausted conn requests_get cnpj c c2 l r Hrej Hget Ho) in H.
      discriminate H.
    + rewrite (consultar_once conn requests_get 0 cnpj c c2 l o Hrej Hget Ho) in H.
      injection H as <- <-.
      exists 0, c, c2, o. repeat split; auto.
  - left. rewrite (consultar_rejected conn requests_get (S depth) cnpj _ Hrej) in H.
    injection H as <- <-. auto.
  - right. split; [reflexivity|].
    destruct (requests_get c (registry_url (clean_cnpj cnpj))) as [o c2] eqn:Hget.
    destruct (is_429 o) eqn:Ho.
    + destruct o as [r|e]; [|discriminate Ho]. cbn [is_429] in Ho.
      apply Z.eqb_eq in Ho.
      rewrite (consultar_429 conn requests_get depth cnpj c c2 l r Hrej Hget Ho) in H.
      destruct (consultar_cnpj_api requests_get depth cnpj _) as [[res1 w1]|] eqn:Hrec;
        [|discriminate H].
      injection H as <- <-.
      destruct (IH _ _ _ _ _ Hrec) as [(Hbad & _)|(_ & n & c1 & c3 & o' & Hn & Hafter & Hlast & Hno & -> & ->)];
        [congruence|].
      exists (S n), c1, c3, o'. repeat split; try assumption.
      * lia.
      * cbn [after_429]. rewrite Hget, (proj2 (Z.eqb_eq _ _) Ho). exact Hafter.
      * apply except_answer.
      * cbn [retry_rounds]. rewrite <- !app_assoc. reflexivity.
    + rewrite (consultar_once conn requests_get (S depth) cnpj c c2 l o Hrej Hget Ho) in H.
      injection H as <- <-.
      exists 0, c, c2, o. repeat split; auto. lia.
Qed.

(** X5: whatever the transport does, a lookup that returns has either
    rejected its input and touched nothing, or has made [n] requests that
    were answered 429, each followed by the notice and a sleep of 60
    seconds, and one last request; all [n + 1] requests went to the one
    URL of the digits of the input, and the result is the answer to the
    last outcome. *)
Theorem consultar_runs (depth : nat) (cnpj : str) (c : conn) (l : list event)
    (res : result value) (w' : world conn) :
  consultar_cnpj_api requests_get depth cnpj (Build_world c l) = Some (res, w') ->
  (length (clean_cnpj cnpj) <> 14 /\
   res = Return (error_dict (lit "CNPJ inválido. Digite 14 dígitos numéricos.")) /\
   w' = Build_world c l) \/
  (length (clean_cnpj cnpj) = 14 /\
   exists (n : nat) (c1 c2 : conn) (o : result response),
     n <= depth /\
     after_429 requests_get n (registry_url (clean_cnpj cnpj)) c = Some c1 /\
     requests_get c1 (registry_url (clean_cnpj cnpj)) = (o, c2) /\
     is_429 o = false /\
     res = answer (clean_cnpj cnpj) o /\
     w' = Build_world c2 (l ++ retry_rounds n (registry_url (clean_cnpj cnpj))
                            ++ [HttpGet (registry_url (clean_cnpj cnpj))])).
Proof.
  intros H. apply consultar_inversion in H.
  rewrite rejected_clean in H.
  destruct H as [(Hrej & Hres & Hw)|(Hrej & Hrun)].
  - left. apply negb_true_iff, Nat.eqb_neq in Hrej. auto.
  - right. apply negb_false_iff, Nat.eqb_eq in Hrej. auto.
Qed.


(** X7: a 200 response whose body [response.json()] cannot read.  When
    the exception is a [RequestException] (as the [JSONDecodeError] of
    [requests] is) the lookup reports a connection error, although the
    connection worked; an exception of another kind leaves the lookup
    as it is. *)
Theorem unreadable_body_of_200 (depth : nat) (code : str) (c c' : conn)
    (l : list event) (r : response) (e : exn) :
  is_canonical code = true ->
  requests_get c (registry_url code) = (Return r, c') ->
  status_code r = 200%Z ->
  json r = Raise e ->
  consultar_cnpj_api requests_get depth code (Build_world c l)
  = Some (match e with
          | RequestException details =>
            Return (error_dict (lit "Erro de conexão: " ++ details))
          | _ => Raise e
          end,
          Build_world c' (l ++ [HttpGet (registry_url code)])).
Proof.
  intros Hcode Hget H200 Hjson.
  pose proof (consultar_once conn requests_get depth code c c' l (Return r)
                (rejected_canonical code Hcode)) as H.
  rewrite (clean_canonical code Hcode) in H.
  rewrite H; [|exact Hget | cbn [is_429]; rewrite H200; reflexivity].
  cbn [answer]. rewrite H200, Hjson. destruct e; reflexivity.
Qed.

End LookupExtras.

(* ================================================================= *)
(** ** Further properties of the extraction *)

Section ExtractExtras.
Context {U : Unicode} {R : Runtime}.

Lemma format_cnpj_value_inv (v a : value) :
  format_cnpj_value v = Return a -> exists s, v = VStr s /\ a = VStr (format_cnpj s).
Proof. destruct v; try discriminate. intros H. injection H as <-. eauto. Qed.

Lemma data_de_abertura_inv (v a : value) :
  data_de_abertura v = Return a -> exists s, a = VStr s.
Proof.
  unfold data_de_abertura, NA. destruct (truthy v).
  - destruct v; try discriminate. destruct (strptime_Ymd s); intros H;
      injection H as <-; eauto.
  - intros H. injection H as <-. eauto.
Qed.

Lemma socios_inv (v a : value) :
  socios v = Return a -> exists s, a = VStr s.
Proof.
  unfold socios, NA. destruct (truthy v).
  - intros H. invert_binds H. injection H as <-. eauto.
  - intros H. injection H as <-. eauto.
Qed.

(** A response in which [in] finds no ["error"]: the extraction that
    returns reports no error. *)
Lemma extract_reports_no_error (v x y : value) :
  contains (lit "error") v = Return false ->
  extract_data_for_display v = Return (x, y) ->
  y = VNone.
Proof.
  intros Hc H. unfold extract_data_for_display in H. rewrite Hc in H.
  cbn [bind] in H. invert_binds H. injection H as _ <-. reflexivity.
Qed.

(** X8: a response that is no mapping (a list, a string, a number, [null])
    makes the extraction raise; it never returns. *)
Theorem extract_needs_a_mapping (v : value) :
  is_dict v = false ->
  extract_data_for_display v = Raise TypeError \/
  extract_data_for_display v = Raise AttributeError.
Proof.
  intros H. unfold extract_data_for_display.
  destruct v; try discriminate H; cbn [contains bind]; auto.
  - destruct (is_infix (lit "error") s); cbn [subscript get bind]; auto.
  - destruct (existsb _ l); cbn [subscript get bind]; auto.
Qed.

(** X9: whenever the extraction returns a display record, the record has
    the same nine keys in the same order and no error comes with it; the
    fields ["CNPJ"], ["Data de Abertura"], ["CNAE Principal"] and
    ["Sócios"] are strings, and ["CNPJ"] is the formatted ["taxId"], at
    most 18 characters long. *)
Theorem extract_record_shape (m : dict) (x y : value) :
  dict_get m (lit "error") = None ->
  extract_data_for_display (VDict m) = Return (x, y) ->
  y = VNone /\
  exists (taxId abertura cnae socios_text : str)
         (razao_social nome_fantasia situacao logradouro numero : value),
    x = VDict [ (lit "CNPJ", VStr (format_cnpj taxId));
                (lit "Razão Social", razao_social);
                (lit "Nome Fantasia", nome_fantasia);
                (lit "Data de Abertura", VStr abertura);
                (lit "Situação Cadastral", situacao);
                (lit "Logradouro", logradouro);
                (lit "Número", numero);
                (lit "CNAE Principal", VStr cnae);
                (lit "Sócios", VStr socios_text) ] /\
    length (format_cnpj taxId) <= 18 /\
    (dict_get m (lit "taxId") = Some (VStr taxId) \/
     dict_get m (lit "taxId") = None /\ taxId = lit "N/A").
Proof.
  intros Herr H. unfold extract_data_for_display, contains, dict_has in H.
  rewrite Herr in H. cbn [bind] in H.
  invert_binds H. injection H as <- <-. split; [reflexivity|].
  apply format_cnpj_value_inv in Ha4. destruct Ha4 as (t & -> & ->).
  apply data_de_abertura_inv in Ha8. destruct Ha8 as (ab & ->).
  apply socios_inv in Ha15. destruct Ha15 as (so & ->).
  exists t, ab. do 7 eexists. split; [reflexivity|]. split.
  - rewrite format_cnpj_with_separators.
    apply with_separators_length, normalize_length.
  - cbn [get] in Ha3.
    destruct (dict_get m (lit "taxId")) as [v|].
    + left. congruence.
    + right. split; [reflexivity|]. unfold NA in Ha3.
      injection Ha3 as <-. reflexivity.
Qed.

(** X10: a value that is present is shown as it is, whatever it is: the
    placeholder stands for an absent key only.  A [null] alias, which is
    how the registry writes a company without a trade name, is shown as
    [None]. *)
Theorem present_values_pass_through (m rec : dict) (y : value) :
  dict_get m (lit "error") = None ->
  extract_data_for_display (VDict m) = Return (VDict rec, y) ->
  (forall v, dict_get m (lit "alias") = Some v ->
             dict_get rec (lit "Nome Fantasia") = Some v) /\
  (forall v, dict_get (sub m (lit "company")) (lit "name") = Some v ->
             dict_get rec (lit "Razão Social") = Some v) /\
  (forall v, dict_get (sub m (lit "status")) (lit "text") = Some v ->
             dict_get rec (lit "Situação Cadastral") = Some v) /\
  (forall v, dict_get (sub m (lit "address")) (lit "street") = Some v ->
             dict_get rec (lit "Logradouro") = Some v) /\
  (forall v, dict_get (sub m (lit "address")) (lit "number") = Some v ->
             dict_get rec (lit "Número") = Some v).
Proof.
  intros Herr H. unfold extract_data_for_display, contains, dict_has in H.
  rewrite Herr in H. cbn [bind] in H.
  invert_binds H. injection H as <- _.
  assert (Hsub : forall k d,
             get (VDict m) k (VDict []) = Return d ->
             forall k' default v' , get d k' default = Return v' ->
             forall v, dict_get (sub m k) k' = Some v -> v' = v).
  { intros k d Hd k' default v' Hv v Hpresent. unfold sub in Hpresent.
    cbn [get] in Hd. injection Hd as <-.
    destruct (dict_get m k) as [[]|]; try discriminate Hpresent.
    cbn [get] in Hv. rewrite Hpresent in Hv. congruence. }
  repeat split; intros v Hv.
  - cbn [get] in Ha6. rewrite Hv in Ha6. injection Ha6 as <-. reflexivity.
  - rewrite (Hsub _ _ Ha _ _ _ Ha5 v Hv). reflexivity.
  - rewrite (Hsub _ _ Ha1 _ _ _ Ha9 v Hv). reflexivity.
  - rewrite (Hsub _ _ Ha0 _ _ _ Ha10 v Hv). reflexivity.
  - rewrite (Hsub _ _ Ha0 _ _ _ Ha11 v Hv). reflexivity.
Qed.

End ExtractExtras.

(* ================================================================= *)
(** ** Properties of the page *)

Section PageExtras.
Context {U : Unicode} {R : Runtime}.
Variable conn : Type.
Variable requests_get : conn -> str -> result response * conn.

Lemma clean_length_le (s : str) : length (clean_cnpj s) <= length s.
Proof. apply filter_length_le. Qed.

(** The test of line 129 is the test of line 44. *)
Lemma page_guard (s : str) :
  negb (length (clean_cnpj s) =? 14) || negb (isdigit (clean_cnpj s))
  = negb (length (clean_cnpj s) =? 14).
Proof.
  destruct (length (clean_cnpj s) =? 14) eqn:Hl; [|reflexivity].
  apply Nat.eqb_eq in Hl. cbn [negb orb].
  rewrite isdigit_decimal; [reflexivity | apply re_sub_decimal |].
  intros E. rewrite E in Hl. discriminate Hl.
Qed.

Lemma truthy_input (s : str) : 0 < length s -> truthy (VStr s) = true.
Proof. destruct s; simpl; [lia | reflexivity]. Qed.

(** X11: the notice [CNPJ formatado] appears exactly when the input holds
    more than 14 digits, that is, when formatting drops digits. *)
Theorem notice_iff_more_than_14_digits (cnpj_input : str) (a : page conn) :
  formatacao_automatica cnpj_input a
  = if 14 <? length (clean_cnpj cnpj_input)
    then say (StInfo (lit "CNPJ formatado: **" ++ format_cnpj cnpj_input ++ lit "**")) a
    else a.
Proof.
  unfold formatacao_automatica. rewrite clean_format, normalize_firstn.
  pose proof (clean_length_le cnpj_input) as Hle.
  destruct (14 <? length (clean_cnpj cnpj_input)) eqn:E.
  - apply Nat.ltb_lt in E. rewrite truthy_input by lia.
    destruct (str_eqb (clean_cnpj cnpj_input) (firstn 14 (clean_cnpj cnpj_input))) eqn:Heq;
      [|reflexivity].
    apply str_eqb_eq in Heq. apply (f_equal (@length char)) in Heq.
    rewrite length_firstn in Heq. lia.
  - apply Nat.ltb_ge in E. rewrite firstn_all2 by exact E.
    rewrite (proj2 (str_eqb_eq _ _) eq_refl). cbn [negb].
    rewrite andb_false_r. reflexivity.
Qed.

(** X12: a click on an input whose digits do not number 14 makes no
    request and leaves the transport and the stored result alone; the page
    gets one message, the warning for an empty input and the error for any
    other. *)
Theorem invalid_input_stays_on_the_page (depth : nat) (cnpj_input : str)
    (a : page conn) :
  length (clean_cnpj cnpj_input) <> 14 ->
  botao_consultar requests_get depth cnpj_input true a
  = Some (Return tt,
          Build_page (transport a)
            (screen a ++
             [if length cnpj_input =? 0
              then Effect (StWarning (lit "Por favor, digite um CNPJ para consultar."))
              else StError (lit "CNPJ inválido. Digite 14 dígitos numéricos.")])
            (last_consulted_data a) (api_raw_response a)).
Proof.
  intros H. unfold botao_consultar. cbn [truthy].
  destruct (length cnpj_input =? 0); cbn [negb]; [reflexivity|].
  rewrite page_guard. apply Nat.eqb_neq in H. rewrite H. reflexivity.
Qed.

(** A click on an input with 14 digits runs the lookup on these digits. *)
Lemma botao_valid (depth : nat) (cnpj_input : str) (a : page conn) :
  length (clean_cnpj cnpj_input) = 14 ->
  truthy (VStr cnpj_input) = true /\
  negb (length (clean_cnpj cnpj_input) =? 14)
    || negb (isdigit (clean_cnpj cnpj_input)) = false.
Proof.
  intros H. split.
  - apply truthy_input. pose proof (clean_length_le cnpj_input). lia.
  - rewrite page_guard, H. reflexivity.
Qed.

(** X13: when the lookup returns a mapping with the key ["error"], as
    every failure of the lookup is, the page shows [Erro na consulta] with
    the message, the stored result is replaced by an empty one, and the
    panel of results shows nothing on it. *)
Theorem lookup_failure_clears_the_panel (depth : nat) (cnpj_input : str)
    (a : page conn) (m : dict) (e : value) (w : world conn) :
  length (clean_cnpj cnpj_input) = 14 ->
  consultar_cnpj_api requests_get depth (clean_cnpj cnpj_input)
    (Build_world (transport a) []) = Some (Return (VDict m), w) ->
  dict_get m (lit "error") = Some e ->
  botao_consultar requests_get depth cnpj_input true a
  = Some (Return tt,
          Build_page (net w)
            (((screen a ++ [StSpinner (lit "Consultando CNPJ...")])
                ++ map Effect (log w))
               ++ [StError (lit "Erro na consulta: " ++ format_value e)])
            (Some (VDict [])) (Some (VDict []))) /\
  forall (t : conn) (s : list ui_event),
    exibir_resultados (Build_page t s (Some (VDict [])) (Some (VDict [])))
              = Return (Build_page t s (Some (VDict [])) (Some (VDict []))).
Proof.
  intros Hlen Hlookup Herr.
  destruct (botao_valid depth cnpj_input a Hlen) as [Ht Hg].
  split; [|reflexivity].
  unfold botao_consultar. rewrite Ht, Hg. cbn [negb say transport screen].
  rewrite Hlookup. cbn [contains subscript]. unfold dict_has. rewrite Herr.
  reflexivity.
Qed.

(** X14: when the lookup returns a mapping without the key ["error"] and
    the extraction returns on it, the page shows the success message and
    stores the extracted record together with the response as it came. *)
Theorem lookup_success_is_stored (depth : nat) (cnpj_input : str)
    (a : page conn) (m : dict) (x y : value) (w : world conn) :
  length (clean_cnpj cnpj_input) = 14 ->
  consultar_cnpj_api requests_get depth (clean_cnpj cnpj_input)
    (Build_world (transport a) []) = Some (Return (VDict m), w) ->
  dict_get m (lit "error") = None ->
  extract_data_for_display (VDict m) = Return (x, y) ->
  botao_consultar requests_get depth cnpj_input true a
  = Some (Return tt,
          Build_page (net w)
            (((screen a ++ [StSpinner (lit "Consultando CNPJ...")])
                ++ map Effect (log w))
               ++ [StSuccess (lit "Consulta concluída com sucesso!")])
            (Some x) (Some (VDict m))).
Proof.
  intros Hlen Hlookup Herr Hx.
  destruct (botao_valid depth cnpj_input a Hlen) as [Ht Hg].
  assert (Hc : contains (lit "error") (VDict m) = Return false).
  { cbn [contains]. unfold dict_has. rewrite Herr. reflexivity. }
  pose proof (extract_reports_no_error (VDict m) x y Hc Hx) as ->.
  unfold botao_consultar. rewrite Ht, Hg. cbn [negb say transport screen].
  rewrite Hlookup, Hc, Hx. reflexivity.
Qed.


(** What a click adds to the page. *)
Lemma botao_delta (depth : nat) (cnpj_input : str) (clicked : bool)
    (a a' : page conn) (r : result unit) :
  botao_consultar requests_get depth cnpj_input clicked a = Some (r, a') ->
  exists delta,
    screen a' = screen a ++ delta /\
    (delta = [] \/
     delta = [Effect (StWarning (lit "Por favor, digite um CNPJ para consultar."))] \/
     delta = [StError (lit "CNPJ inválido. Digite 14 dígitos numéricos.")] \/
     exists (res : result value) (w : world conn) (tail : list ui_event),
       clicked = true /\
       length (clean_cnpj cnpj_input) = 14 /\
       consultar_cnpj_api requests_get depth (clean_cnpj cnpj_input)
         (Build_world (transport a) []) = Some (res, w) /\
       delta = StSpinner (lit "Consultando CNPJ...") :: map Effect (log w) ++ tail /\
       (tail = [] \/
        (exists v, tail = [StError (lit "Erro na consulta: " ++ v)]) \/
        tail = [StSuccess (lit "Consulta concluída com sucesso!")])).
Proof.
  unfold botao_consultar. intros H.
  destruct clicked.
  2:{ assert (E : a' = a) by congruence. rewrite E.
      exists []. rewrite app_nil_r. auto. }
  destruct (truthy (VStr cnpj_input)); cbn [negb] in H.
  2:{ match type of H with
      | Some (_, ?x) = _ => assert (E : a' = x) by congruence; rewrite E
      end.
      eexists. split; [reflexivity|]. auto. }
  rewrite page_guard in H.
  destruct (length (clean_cnpj cnpj_input) =? 14) eqn:Hlen; cbn [negb] in H.
  2:{ match type of H with
      | Some (_, ?x) = _ => assert (E : a' = x) by congruence; rewrite E
      end.
      eexists. split; [reflexivity|]. auto. }
  apply Nat.eqb_eq in Hlen. cbn [say transport screen] in H.
  destruct (consultar_cnpj_api requests_get depth (clean_cnpj cnpj_input) _)
    as [[res w]|] eqn:Hlookup; [|discriminate H].
  assert (Hcase : exists tail,
            screen a' = ((screen a ++ [StSpinner (lit "Consultando CNPJ...")])
                           ++ map Effect (log w)) ++ tail /\
            (tail = [] \/
             (exists v, tail = [StError (lit "Erro na consulta: " ++ v)]) \/
             tail = [StSuccess (lit "Consulta concluída com sucesso!")])).
  { destruct res as [api_response|e].
    2:{ exists []. split; [|auto].
        match type of H with
        | Some (_, ?x) = _ => assert (E : a' = x) by congruence; rewrite E
        end.
        cbn [screen]. rewrite app_nil_r. reflexivity. }
    destruct (contains (lit "error") api_response) as [[|]|e] eqn:Hc.
    - destruct (subscript api_response (lit "error")) as [err|e].
      + exists [StError (lit "Erro na consulta: " ++ format_value err)].
        split; [|eauto].
        match type of H with
        | Some (_, ?x) = _ => assert (E : a' = x) by congruence; rewrite E
        end.
        reflexivity.
      + exists []. split; [|auto].
        match type of H with
        | Some (_, ?x) = _ => assert (E : a' = x) by congruence; rewrite E
        end.
        cbn [screen]. rewrite app_nil_r. reflexivity.
    - destruct (extract_data_for_display api_response) as [[x y]|e] eqn:Hx.
      + rewrite (extract_reports_no_error api_response x y Hc Hx) in H.
        cbn [truthy] in H.
        exists [StSuccess (lit "Consulta concluída com sucesso!")].
        split; [|auto].
        match type of H with
        | Some (_, ?x) = _ => assert (E : a' = x) by congruence; rewrite E
        end.
        reflexivity.
      + exists []. split; [|auto].
        match type of H with
        | Some (_, ?x) = _ => assert (E : a' = x) by congruence; rewrite E
        end.
        cbn [screen]. rewrite app_nil_r. reflexivity.
    - exists []. split; [|auto].
      match type of H with
      | Some (_, ?x) = _ => assert (E : a' = x) by congruence; rewrite E
      end.
      cbn [screen]. rewrite app_nil_r. reflexivity. }
  destruct Hcase as (tail & Hscreen & Htail).
  exists (StSpinner (lit "Consultando CNPJ...") :: map Effect (log w) ++ tail).
  split.
  - rewrite Hscreen, <- !app_assoc. reflexivity.
  - right; right; right. exists res, w, tail. repeat split; auto.
Qed.

(** X15: the message [Erro ao processar dados] of line 142 is never
    shown.  The extraction reports an error only for a response with the
    key ["error"], and the page has taken that case before it calls the
    extraction. *)
Theorem processing_error_is_never_shown (depth : nat) (cnpj_input : str)
    (clicked : bool) (a a' : page conn) (r : result unit) :
  botao_consultar requests_get depth cnpj_input clicked a = Some (r, a') ->
  exists delta,
    screen a' = screen a ++ delta /\
    forall msg, ~ In (StError (lit "Erro ao processar dados: " ++ msg)) delta.
Proof.
  intros H. destruct (botao_delta _ _ _ _ _ _ H) as (delta & Hscreen & Hdelta).
  exists delta. split; [exact Hscreen|]. intros msg Hin.
  destruct Hdelta as [->|[->|[->|(res & w & tail & _ & _ & _ & -> & Htail)]]].
  - destruct Hin.
  - destruct Hin as [E|[]]. discriminate E.
  - destruct Hin as [E|[]]. cbn in E. discriminate E.
  - destruct Hin as [E|Hin]; [discriminate E|].
    apply in_app_or in Hin. destruct Hin as [Hin|Hin].
    + apply in_map_iff in Hin. destruct Hin as (e & E & _). discriminate E.
    + destruct Htail as [->|[(v & ->)| ->]].
      * destruct Hin.
      * destruct Hin as [E|[]]. cbn in E. discriminate E.
      * destruct Hin as [E|[]]. discriminate E.
Qed.


Lemma say_page (e : ui_event) (t : conn) (s : list ui_event) (l r : option value) :
  say e (Build_page t s l r) = Build_page t (s ++ [e]) l r.
Proof. reflexivity. Qed.

(** X17: whatever the extraction has stored, the panel is drawn without
    raising and without falling back on its own default: the heading, the
    five tabs, one line for each of the nine fields, the first of them the
    formatted ["taxId"], and the line of the last tab. *)
Theorem panel_shows_the_extracted_record (m : dict) (x y : value) (a : page conn) :
  dict_get m (lit "error") = None ->
  extract_data_for_display (VDict m) = Return (x, y) ->
  last_consulted_data a = Some x ->
  exists (taxId : str) (lines : list ui_event),
    exibir_resultados a
    = Return (Build_page (transport a)
                (screen a ++
                 StSubheader (lit "Dados do CNPJ")
                 :: StTabs [lit "Geral"; lit "Endereço"; lit "Atividades";
                            lit "Sócios"; lit "IEs"]
                 :: StWrite (lit "Geral") (lit "**CNPJ:** " ++ format_cnpj taxId)
                 :: lines)
                (last_consulted_data a) (api_raw_response a)) /\
    length lines = 9 /\
    (dict_get m (lit "taxId") = Some (VStr taxId) \/
     dict_get m (lit "taxId") = None /\ taxId = lit "N/A").
Proof.
  intros Herr Hx Hlast.
  destruct (extract_record_shape m x y Herr Hx)
    as (_ & taxId & ab & cn & so & rs & nf & si & lo & nu & -> & _ & HtaxId).
  exists taxId. unfold exibir_resultados. rewrite Hlast.
  destruct a as [t s l r]. cbn [last_consulted_data] in Hlast. subst l.
  cbn -[format_cnpj format_value say].
  rewrite !say_page, <- !app_assoc.
  eexists. split; [reflexivity|]. split; [reflexivity | exact HtaxId].
Qed.

(** X18: the text file offered for download is named after the digits of
    the ["taxId"] of the stored record, at most 14 of them, and after no
    digit at all when the record had no ["taxId"]. *)
Theorem cartao_file_name_is_keyed_by_digits (m : dict) (x y : value) :
  dict_get m (lit "error") = None ->
  extract_data_for_display (VDict m) = Return (x, y) ->
  (forall t, dict_get m (lit "taxId") = Some (VStr t) ->
     nome_cartao_txt x
     = Return (lit "Cartao_CNPJ_" ++ firstn 14 (clean_cnpj t) ++ lit ".txt")) /\
  (dict_get m (lit "taxId") = None ->
     nome_cartao_txt x = Return (lit "Cartao_CNPJ_.txt")).
Proof.
  intros Herr Hx.
  destruct (extract_record_shape m x y Herr Hx)
    as (_ & taxId & ab & cn & so & rs & nf & si & lo & nu & -> & _ & HtaxId).
  assert (Hname : nome_cartao_txt
                    (VDict [ (lit "CNPJ", VStr (format_cnpj taxId));
                             (lit "Razão Social", rs);
                             (lit "Nome Fantasia", nf);
                             (lit "Data de Abertura", VStr ab);
                             (lit "Situação Cadastral", si);
                             (lit "Logradouro", lo);
                             (lit "Número", nu);
                             (lit "CNAE Principal", VStr cn);
                             (lit "Sócios", VStr so) ])
                  = Return (lit "Cartao_CNPJ_" ++ firstn 14 (clean_cnpj taxId)
                              ++ lit ".txt")).
  { unfold nome_cartao_txt. rewrite <- normalize_firstn, <- clean_format. reflexivity. }
  split.
  - intros t Ht. rewrite Hname.
    destruct HtaxId as [E|[E _]]; [|congruence].
    rewrite Ht in E. injection E as ->. reflexivity.
  - intros Hnone. rewrite Hname.
    destruct HtaxId as [E|[_ ->]]; [congruence|].
    unfold clean_cnpj. rewrite re_sub_ascii by reflexivity. reflexivity.
Qed.

(** X19: when a click ends in an exception (the lookup raised, or the
    extraction did on a response it cannot read), the stored result is
    what it was before the click. *)
Theorem crash_keeps_the_stored_result (depth : nat) (cnpj_input : str)
    (clicked : bool) (a a' : page conn) (e : exn) :
  botao_consultar requests_get depth cnpj_input clicked a = Some (Raise e, a') ->
  last_consulted_data a' = last_consulted_data a /\
  api_raw_response a' = api_raw_response a.
Proof.
  unfold botao_consultar. intros H.
  destruct clicked; [|discriminate H].
  destruct (negb (truthy (VStr cnpj_input))); [discriminate H|].
  destruct (negb (length (clean_cnpj cnpj_input) =? 14)
            || negb (isdigit (clean_cnpj cnpj_input))); [discriminate H|].
  destruct (consultar_cnpj_api requests_get depth (clean_cnpj cnpj_input) _)
    as [[res w]|]; [|discriminate H].
  destruct res as [api_response|e0].
  2:{ injection H as _ <-. split; reflexivity. }
  destruct (contains (lit "error") api_response) as [[|]|e0].
  - destruct (subscript api_response (lit "error")) as [err|e0];
      [discriminate H|].
    injection H as _ <-. split; reflexivity.
  - destruct (extract_data_for_display api_response) as [[x y]|e0].
    + destruct (truthy y); discriminate H.
    + injection H as _ <-. split; reflexivity.
  - injection H as _ <-. split; reflexivity.
Qed.

End PageExtras.

(* ================================================================= *)
(** ** The further properties on the samples *)

Lemma consultar_runs_witness :
  exists n : nat,
    n <= 1 /\
    Build_world ([] : list (result response))
      [ HttpGet (lit "https://open.cnpja.com/office/11222333000181");
        StWarning RATE_LIMIT_NOTICE;
        TimeSleep 60;
        HttpGet (lit "https://open.cnpja.com/office/11222333000181") ]
    = Build_world []
        ([] ++ retry_rounds n (lit "https://open.cnpja.com/office/11222333000181")
            ++ [HttpGet (lit "https://open.cnpja.com/office/11222333000181")]).
Proof.
  destruct (@consultar_runs ascii_only _ scripted 1 (lit "11222333000181")
              [http_no_json 429; http_response 200 sample_record] []
              (Return sample_record)
              (Build_world []
                 [ HttpGet (lit "https://open.cnpja.com/office/11222333000181");
                   StWarning RATE_LIMIT_NOTICE;
                   TimeSleep 60;
                   HttpGet (lit "https://open.cnpja.com/office/11222333000181") ])
              eq_refl)
    as [(Hbad & _)|(_ & n & c1 & c2 & o & Hn & Hafter & Hget & _ & _ & Hw)].
  - exfalso. apply Hbad. reflexivity.
  - exists n. split; [exact Hn|].
    destruct n as [|[|n]]; [discriminate Hw | | lia].
    reflexivity.
Defined.


Lemma unreadable_body_of_200_witness :
  consultar_cnpj_api (U := ascii_only) scripted 0 (lit "11222333000181")
    (Build_world [Return http_unreadable] [])
  = Some (Return (error_dict
            (lit "Erro de conexão: Expecting value: line 1 column 1 (char 0)")),
          Build_world [] [HttpGet (lit "https://open.cnpja.com/office/11222333000181")]).
Proof.
  exact (@unreadable_body_of_200 ascii_only _ scripted 0 (lit "11222333000181")
           [Return http_unreadable] [] [] http_unreadable
           (RequestException (lit "Expecting value: line 1 column 1 (char 0)"))
           eq_refl eq_refl eq_refl eq_refl).
Defined.

Lemma extract_needs_a_mapping_witness :
  @extract_data_for_display ascii_only sample_runtime (VList [sample_record])
  = Raise TypeError \/
  @extract_data_for_display ascii_only sample_runtime (VList [sample_record])
  = Raise AttributeError.
Proof.
  exact (@extract_needs_a_mapping ascii_only sample_runtime (VList [sample_record])
           eq_refl).
Defined.

Lemma extract_record_shape_witness :
  exists x : value,
    @extract_data_for_display ascii_only sample_runtime (VDict sample_fields)
    = Return (x, VNone).
Proof.
  destruct (@extract_record_shape ascii_only sample_runtime sample_fields
              sample_display VNone eq_refl eq_refl) as [_ _].
  exists sample_display. reflexivity.
Defined.

Lemma present_values_pass_through_witness :
  dict_get null_alias_display (lit "Nome Fantasia") = Some VNone.
Proof.
  exact (proj1 (@present_values_pass_through ascii_only sample_runtime
                  null_alias_fields null_alias_display VNone eq_refl eq_refl)
           VNone eq_refl).
Defined.

Lemma invalid_input_stays_on_the_page_witness :
  botao_consultar (U := ascii_only) (R := sample_runtime) scripted 0 (lit "123") true
    start_page
  = Some (Return tt,
          Build_page [http_response 200 sample_record]
            [StError (lit "CNPJ inválido. Digite 14 dígitos numéricos.")] None None).
Proof.
  apply (@invalid_input_stays_on_the_page ascii_only sample_runtime _ scripted 0
           (lit "123") start_page).
  vm_compute. discriminate.
Defined.

Lemma lookup_failure_clears_the_panel_witness :
  botao_consultar (U := ascii_only) (R := sample_runtime) scripted 0
    (lit "11.222.333/0001-81") true
    (Build_page [http_no_json 404] [] (Some sample_display) (Some sample_record))
  = Some (Return tt,
          Build_page []
            [ StSpinner (lit "Consultando CNPJ...");
              Effect (HttpGet (lit "https://open.cnpja.com/office/11222333000181"));
              StError (lit "Erro na consulta: CNPJ 11222333000181 não encontrado ou inválido na base da API.") ]
            (Some (VDict [])) (Some (VDict []))).
Proof.
  exact (proj1 (@lookup_failure_clears_the_panel ascii_only sample_runtime _ scripted 0
                  (lit "11.222.333/0001-81")
                  (Build_page [http_no_json 404] [] (Some sample_display) (Some sample_record))
                  [(lit "error",
                    VStr (lit "CNPJ 11222333000181 não encontrado ou inválido na base da API."))]
                  (VStr (lit "CNPJ 11222333000181 não encontrado ou inválido na base da API."))
                  (Build_world []
                     [HttpGet (lit "https://open.cnpja.com/office/11222333000181")])
                  eq_refl eq_refl eq_refl)).
Defined.

Lemma lookup_success_is_stored_witness :
  botao_consultar (U := ascii_only) (R := sample_runtime) scripted 0
    (lit "11.222.333/0001-81") true start_page
  = Some (Return tt, success_page).
Proof.
  exact (@lookup_success_is_stored ascii_only sample_runtime _ scripted 0
           (lit "11.222.333/0001-81") start_page sample_fields sample_display VNone
           (Build_world []
              [HttpGet (lit "https://open.cnpja.com/office/11222333000181")])
           eq_refl eq_refl eq_refl eq_refl).
Defined.

Lemma processing_error_is_never_shown_witness :
  exists delta,
    screen success_page = screen start_page ++ delta /\
    forall msg, ~ In (StError (lit "Erro ao processar dados: " ++ msg)) delta.
Proof.
  exact (@processing_error_is_never_shown ascii_only sample_runtime _ scripted 0
           (lit "11.222.333/0001-81") true start_page success_page (Return tt)
           eq_refl).
Defined.


Lemma panel_shows_the_extracted_record_witness :
  exists a' : page (list (result response)),
    exibir_resultados (R := sample_runtime) success_page = Return a' /\
    length (screen a') = 15.
Proof.
  destruct (@panel_shows_the_extracted_record ascii_only sample_runtime _
              sample_fields sample_display VNone success_page
              eq_refl eq_refl eq_refl)
    as (taxId & lines & H & Hlines & _).
  eexists. split; [exact H|].
  cbn [screen]. rewrite length_app. cbn [length success_page screen].
  rewrite Hlines. reflexivity.
Defined.

Lemma cartao_file_name_is_keyed_by_digits_witness :
  @nome_cartao_txt ascii_only sample_display
  = Return (lit "Cartao_CNPJ_11222333000181.txt").
Proof.
  rewrite (proj1 (@cartao_file_name_is_keyed_by_digits ascii_only sample_runtime
                    sample_fields sample_display VNone eq_refl eq_refl)
             (lit "11222333000181") eq_refl).
  reflexivity.
Defined.

(** A registry that answers [{"company": null}]: the extraction raises
    and the click ends in the exception. *)
Lemma crash_keeps_the_stored_result_witness :
  last_consulted_data
    (Build_page ([] : list (result response))
       [ StSpinner (lit "Consultando CNPJ...");
         Effect (HttpGet (lit "https://open.cnpja.com/office/11222333000181")) ]
       (Some sample_display) (Some sample_record))
  = Some sample_display.
Proof.
  exact (proj1 (@crash_keeps_the_stored_result ascii_only sample_runtime _ scripted 0
                  (lit "11222333000181") true
                  (Build_page [http_response 200 (VDict [(lit "company", VNone)])] []
                     (Some sample_display) (Some sample_record))
                  (Build_page []
                     [ StSpinner (lit "Consultando CNPJ...");
                       Effect (HttpGet (lit "https://open.cnpja.com/office/11222333000181")) ]
                     (Some sample_display) (Some sample_record))
                  AttributeError eq_refl)).
Defined.

(* ================================================================= *)
(** ** The model at work *)

Example lit_decodes_utf8 :
  lit "não é" = [110; 227; 111; 32; 233]%N /\
  lit "€" = [8364]%N /\
  lit "🔎" = [128270]%N.
Proof. repeat split; reflexivity. Qed.

(** Fourteen Arabic-Indic digits pass the guard where the database knows
    them, and are the key of the request; a superscript two is a digit for
    [isdigit] and no match for the class the stripping keeps. *)
Example validate_arabic_indic_digits :
  @validate sample_unicode (lit "٠١٢٣٤٥٦٧٨٩٠١٢٣") = Some (lit "٠١٢٣٤٥٦٧٨٩٠١٢٣") /\
  @validate ascii_only (lit "٠١٢٣٤٥٦٧٨٩٠١٢٣") = None /\
  @clean_cnpj sample_unicode (lit "1²") = lit "1" /\
  @isdigit sample_unicode (lit "1²") = true.
Proof. repeat split; vm_compute; reflexivity. Qed.

Example str_of_int_examples :
  str_of_int 0 = lit "0" /\ str_of_int 503 = lit "503" /\ str_of_int (-7) = lit "-7".
Proof. repeat split; reflexivity. Qed.

Example format_cnpj_grows_with_the_input :
  map (@format_cnpj ascii_only)
      [lit "1"; lit "11"; lit "112"; lit "11222"; lit "112223"; lit "112223330";
       lit "1122233300018"; lit "11222333000181"; lit "112223330001819"]
  = [lit "1"; lit "11"; lit "11.2"; lit "11.222"; lit "11.222.3"; lit "11.222.333/0";
     lit "11.222.333/0001-8"; lit "11.222.333/0001-81"; lit "11.222.333/0001-81"].
Proof. vm_compute. reflexivity. Qed.

Example extract_sample_record :
  @extract_data_for_display ascii_only sample_runtime sample_record
  = Return (VDict [ (lit "CNPJ", VStr (lit "11.222.333/0001-81"));
                    (lit "Razão Social", VStr (lit "ACME LTDA"));
                    (lit "Nome Fantasia", VStr (lit "ACME"));
                    (lit "Data de Abertura", VStr (lit "31/12/1999"));
                    (lit "Situação Cadastral", VStr (lit "N/A"));
                    (lit "Logradouro", VStr (lit "N/A"));
                    (lit "Número", VStr (lit "N/A"));
                    (lit "CNAE Principal", VStr (lit "N/A - N/A"));
                    (lit "Sócios", VStr (lit "Ana, N/A")) ],
            VNone).
Proof. vm_compute. reflexivity. Qed.

(** Three rounds of 429 and only two nested calls allowed: no result. *)
Example consultar_needs_depth :
  consultar_cnpj_api (U := ascii_only) scripted 2 (lit "11222333000181")
    (Build_world [http_no_json 429; http_no_json 429; http_no_json 429;
                  http_response 200 sample_record] [])
  = None.
Proof. vm_compute. reflexivity. Qed.
